(** * Proof-of-work difficulty engine (src/pow.cpp, src/chainparams.cpp)

    A shallow embedding of [GetNextWorkRequired], [CalculateNextWorkRequired]
    and [CheckProofOfWork], with the consensus parameters of the three
    networks, and the properties of the retargeting rules; then the
    parameter objects of chainparams.cpp with [Params], [SelectParams] and
    [UpdateRegtestBIP9Parameters] over the statics they share.

    Conventions.  C++ integers are mathematical integers: [int64_t]
    expressions are evaluated in [Z] with [Z.quot] and [Z.rem] for the
    truncating [/] and [%] (signed overflow is undefined in C++ and lies
    outside the model); a 256-bit [arith_uint256] is a [Z] whose wrap-around
    is written out.  A [const CBlockIndex*] is the list of the block it
    points to followed by its ancestors ([pprev] is the tail of the list,
    [NULL] the empty list).  [LogPrintf] appends a line to a log, and a
    failed [assert] ends the run without a value. *)

From Stdlib Require Import ZArith List Bool Lia.
Import ListNotations.
Local Open Scope Z_scope.

(** ** The 256-bit unsigned integer *)

Module arith_uint256.

Definition WIDTH : Z := 256.

(** Reduction of a mathematical integer to the 256 bits an object holds. *)
Definition wrap (x : Z) : Z := x mod 2 ^ WIDTH.

(** Modelled from the spec: [arith_uint256] (arith_uint256.h and .cpp are
    not under src/) is the spec's Target, an unsigned integer of fixed width
    256 bits, always within 0 and 2^256 - 1.  [a *= b] is the in-place
    product by a machine word: the [int64_t] multiplier of pow.cpp is read
    as a 32-bit unsigned word, and the low 256 bits of the product stay in
    the object. *)
Definition mul32 (a b : Z) : Z := wrap (a * (b mod 2 ^ 32)).

(** Modelled from the spec: [a /= d] of the absent [arith_uint256], the
    unsigned integer quotient, for a positive divisor. *)
Definition div (a d : Z) : Z := a / d.

(** Modelled from the spec: [bits()] of the absent [arith_uint256], the
    position of the highest set bit plus one, 0 for the value 0. *)
Definition bits (a : Z) : Z := if a =? 0 then 0 else Z.log2 a + 1.

Definition GetLow64 (a : Z) : Z := a mod 2 ^ 64.

(** Modelled from the spec: [SetCompact] of the absent [arith_uint256], the
    decoder of section 3: one exponent byte and a 23-bit mantissa under a
    sign bit; the value is the mantissa scaled by a power of 256, the
    negative flag is the sign bit of a non-zero mantissa, and the overflow
    flag is raised when the scaled non-zero mantissa does not fit 256 bits.
    The result is (value, fNegative, fOverflow). *)
Definition SetCompact (nCompact : Z) : Z * bool * bool :=
  let nSize := Z.shiftr nCompact 24 in
  let nWord := Z.land nCompact 0x007fffff in
  let nWord := if nSize <=? 3 then Z.shiftr nWord (8 * (3 - nSize)) else nWord in
  let value := if nSize <=? 3 then nWord
               else wrap (Z.shiftl nWord (8 * (nSize - 3))) in
  let fNegative := negb (nWord =? 0) && negb (Z.land nCompact 0x00800000 =? 0) in
  let fOverflow := negb (nWord =? 0)
                   && ((nSize >? 34)
                       || ((nWord >? 0xff) && (nSize >? 33))
                       || ((nWord >? 0xffff) && (nSize >? 32))) in
  (value, fNegative, fOverflow).

(** Modelled from the spec: [GetCompact] of the absent [arith_uint256], the
    encoder of section 4.1: the three most significant bytes as mantissa,
    moved down one byte when the sign bit would be set. *)
Definition GetCompact (a : Z) : Z :=
  let nSize := (bits a + 7) / 8 in
  let nCompact :=
    (if nSize <=? 3 then Z.shiftl (GetLow64 a) (8 * (3 - nSize))
     else GetLow64 (Z.shiftr a (8 * (nSize - 3)))) mod 2 ^ 32 in
  let signed := negb (Z.land nCompact 0x00800000 =? 0) in
  let nCompact := if signed then Z.shiftr nCompact 8 else nCompact in
  let nSize := if signed then nSize + 1 else nSize in
  Z.lor nCompact (Z.shiftl nSize 24).

End arith_uint256.

(** ** Consensus parameters (the fields pow.cpp reads) *)

Module Consensus.

Record Params : Type := mkParams {
  powLimit : Z;
  nPowTargetTimespan : Z;
  nPowTargetSpacing : Z;
  fPowAllowMinDifficultyBlocks : bool;
  fPowNoRetargeting : bool
}.

(** Modelled from the spec: [DifficultyAdjustmentInterval()] is declared in
    consensus/params.h, not under src/; section 3 gives it as
    targetTimespan / targetSpacing (chainparams.cpp repeats the quotient
    in the comment of nMinerConfirmationWindow). *)
Definition DifficultyAdjustmentInterval (params : Params) : Z :=
  Z.quot (nPowTargetTimespan params) (nPowTargetSpacing params).

End Consensus.
Import Consensus.

(** The parameter sets of chainparams.cpp. *)
Definition CMainParams : Params :=
  {| powLimit := 0x00000000ffffffffffffffffffffffffffffffffffffffffffffffffffffffff;
     nPowTargetTimespan := 30 * 60;
     nPowTargetSpacing := 30;
     fPowAllowMinDifficultyBlocks := false;
     fPowNoRetargeting := false |}.

Definition CTestNetParams : Params :=
  {| powLimit := 0x00000000ffffffffffffffffffffffffffffffffffffffffffffffffffffffff;
     nPowTargetTimespan := 30 * 60;
     nPowTargetSpacing := 30;
     fPowAllowMinDifficultyBlocks := true;
     fPowNoRetargeting := false |}.

Definition CRegTestParams : Params :=
  {| powLimit := 0x7fffffffffffffffffffffffffffffffffffffffffffffffffffffffffffffff;
     nPowTargetTimespan := 30 * 60;
     nPowTargetSpacing := 30;
     fPowAllowMinDifficultyBlocks := true;
     fPowNoRetargeting := true |}.

(** ** Block index entries and headers *)

Record CBlockIndex : Type := mkBlockIndex {
  nHeight : Z;
  nTime : Z;
  nBits : Z
}.

Record CBlockHeader : Type := mkBlockHeader {
  hdr_nTime : Z;
  hdr_nBits : Z
}.

(** A [const CBlockIndex*]: the entry pointed to, then its [pprev] chain. *)
Definition pindex : Type := list CBlockIndex.

Definition GetBlockTime (b : CBlockIndex) : Z := nTime b.
Definition hdr_GetBlockTime (h : CBlockHeader) : Z := hdr_nTime h.

(** ** Runs: a log and, unless an assertion failed, a value *)

Inductive LogLine : Type :=
| LogHeightBefore (height : Z)
| LogUseDefaultPowLimit
| LogBeforeBounds (nActualTimespan : Z)
| LogAboveLimit
| LogTimespans (nPowTargetTimespan nActualTimespan : Z)
| LogBefore (nBits target : Z)
| LogAfter (nBits target : Z).

Definition Run (A : Type) : Type := (list LogLine * option A)%type.

Definition ret {A : Type} (a : A) : Run A := ([], Some a).

Definition bind {A B : Type} (m : Run A) (k : A -> Run B) : Run B :=
  match m with
  | (l, Some a) => let (l', r) := k a in (l ++ l', r)
  | (l, None) => (l, None)
  end.

Definition LogPrintf (line : LogLine) : Run unit := ([line], Some tt).

Definition assert (b : bool) : Run unit := if b then ret tt else ([], None).

Definition output {A : Type} (m : Run A) : list LogLine := fst m.
Definition value {A : Type} (m : Run A) : option A := snd m.

Declare Scope run_scope.
Delimit Scope run_scope with run.
Notation "x <- m ;; k" := (bind m (fun x => k))
  (at level 61, m at next level, right associativity) : run_scope.
Notation "m ;; k" := (bind m (fun _ => k))
  (at level 61, right associativity) : run_scope.

Local Open Scope run_scope.

(** ** The collaborators of pow.cpp that live outside src/ *)

(** The compact codec of [arith_uint256], as pow.cpp uses it:
    [SetCompact nBits] is (target, fNegative, fOverflow). *)
Class CompactCodec : Type := {
  SetCompact : Z -> Z * bool * bool;
  GetCompact : Z -> Z
}.

(** The chain index, as pow.cpp reads it through a [CBlockIndex*]. *)
Class ChainView : Type := {
  GetAncestor : pindex -> Z -> pindex;
  GetMedianTimePast : pindex -> Z
}.

Definition Target `{CompactCodec} (nCompact : Z) : Z := fst (fst (SetCompact nCompact)).
Definition fNegative `{CompactCodec} (nCompact : Z) : bool := snd (fst (SetCompact nCompact)).
Definition fOverflow `{CompactCodec} (nCompact : Z) : bool := snd (SetCompact nCompact).

#[export] Instance arith_uint256_codec : CompactCodec :=
  {| SetCompact := arith_uint256.SetCompact;
     GetCompact := arith_uint256.GetCompact |}.

Module chain.

Fixpoint insert (x : Z) (l : list Z) : list Z :=
  match l with
  | [] => [x]
  | y :: l' => if x <=? y then x :: l else y :: insert x l'
  end.

Definition sort (l : list Z) : list Z := fold_right insert [] l.

Definition nMedianTimeSpan : nat := 11.

(** Modelled from the spec: [CBlockIndex::GetMedianTimePast] (chain.h is
    not under src/), the median of the timestamps of the most recent 11
    blocks ending at the block, inclusive (section 6); with an even number
    of blocks the entry at index n/2 of the sorted timestamps. *)
Definition GetMedianTimePast (p : pindex) : Z :=
  let times := sort (map GetBlockTime (firstn nMedianTimeSpan p)) in
  nth (Nat.div (length times) 2) times 0.

(** Modelled from the spec: [CBlockIndex::GetAncestor] (chain.cpp is not
    under src/), the ancestor of the block at the given height on its
    chain, [NULL] when the height is negative or above the block's
    (section 6, ancestorAt). *)
Fixpoint GetAncestor (p : pindex) (height : Z) : pindex :=
  match p with
  | [] => []
  | b :: pprev =>
      if (height >? nHeight b) || (height <? 0) then []
      else if nHeight b =? height then p
      else GetAncestor pprev height
  end.

End chain.

#[export] Instance chain_view : ChainView :=
  {| GetAncestor := chain.GetAncestor;
     GetMedianTimePast := chain.GetMedianTimePast |}.

(** ** Chains used to run the functions on concrete inputs *)

(** Blocks [blk n], [blk (n-1)], ..., [blk 0], the tip first. *)
Fixpoint chain_down (n : nat) (blk : Z -> CBlockIndex) : pindex :=
  match n with
  | O => [blk 0]
  | S k => blk (Z.of_nat n) :: chain_down k blk
  end.

(** A block every 30 seconds from the main network's genesis time, all at
    the compact target 0x1c00ffff. *)
Definition steady_block (h : Z) : CBlockIndex :=
  {| nHeight := h; nTime := 1487000003 + 30 * h; nBits := 0x1c00ffff |}.

(** A block every 60 seconds: the chain runs at half the target rate. *)
Definition slow_block (h : Z) : CBlockIndex :=
  {| nHeight := h; nTime := 1487000003 + 60 * h; nBits := 0x1c00ffff |}.

(** The walk-back scenario of the spec: A at height 58 with a normal target,
    B at 59 and C at 60 at the minimum difficulty, over 58 earlier blocks. *)
Definition walk_back_chain : pindex :=
  {| nHeight := 60; nTime := 1487001803; nBits := 0x1d00ffff |}
  :: {| nHeight := 59; nTime := 1487001773; nBits := 0x1d00ffff |}
  :: chain_down 58 steady_block.

(** Blocks every 30 seconds at the regtest genesis target 0x207fffff. *)
Definition easy_block (h : Z) : CBlockIndex :=
  {| nHeight := h; nTime := 1487000020 + 30 * h; nBits := 0x207fffff |}.

(** Blocks every 30 seconds at the minimum difficulty 0x1d00ffff. *)
Definition min_difficulty_block (h : Z) : CBlockIndex :=
  {| nHeight := h; nTime := 1487000011 + 30 * h; nBits := 0x1d00ffff |}.

(** The regtest parameters with retargeting switched on. *)
Definition retargeting_regtest : Params :=
  {| powLimit := powLimit CRegTestParams;
     nPowTargetTimespan := nPowTargetTimespan CRegTestParams;
     nPowTargetSpacing := nPowTargetSpacing CRegTestParams;
     fPowAllowMinDifficultyBlocks := false;
     fPowNoRetargeting := false |}.

(** ** pow.cpp *)

Section Pow.

Context `{CompactCodec} `{ChainView}.

Definition is_null (p : pindex) : bool :=
  match p with [] => true | _ :: _ => false end.

(** Limit adjustment step: the bounds of the timespan. *)
Definition nMaxAdjustDown : Z := 16.
Definition nMaxAdjustUp : Z := 8.

Definition nMinActualTimespan (params : Params) : Z :=
  Z.quot (nPowTargetTimespan params * (100 - nMaxAdjustUp)) 100.

Definition nMaxActualTimespan (params : Params) : Z :=
  Z.quot (nPowTargetTimespan params * (100 + nMaxAdjustDown)) 100.

(** [nActualTimespan = nPowTargetTimespan + (nActualTimespan - nPowTargetTimespan)/4] *)
Definition Dampen (params : Params) (nActualTimespan : Z) : Z :=
  nPowTargetTimespan params
  + Z.quot (nActualTimespan - nPowTargetTimespan params) 4.

(** The two [if]s that bound [nActualTimespan], in the order of the source. *)
Definition Bound (params : Params) (nActualTimespan : Z) : Z :=
  let nActualTimespan :=
    if nActualTimespan <? nMinActualTimespan params
    then nMinActualTimespan params else nActualTimespan in
  if nActualTimespan >? nMaxActualTimespan params
  then nMaxActualTimespan params else nActualTimespan.

(** Retarget: [bnNew *= nActualTimespan; bnNew /= params.nPowTargetTimespan]. *)
Definition Retarget (params : Params) (bnNew nActualTimespan : Z) : Z :=
  let bnNew := arith_uint256.mul32 bnNew nActualTimespan in
  arith_uint256.div bnNew (nPowTargetTimespan params).

Definition CalculateNextWorkRequired
    (pindexLast : pindex) (nFirstBlockTime : Z) (params : Params) : Run Z :=
  match pindexLast with
  | [] => ([], None) (* pindexLast->nBits on NULL: no value *)
  | last :: _ =>
    if fPowNoRetargeting params then ret (nBits last)
    else
      LogPrintf (LogHeightBefore (nHeight last)) ;;
      if nHeight last <? DifficultyAdjustmentInterval params then
        LogPrintf LogUseDefaultPowLimit ;;
        ret (GetCompact (powLimit params))
      else
        let nHeightFirst :=
          nHeight last - (DifficultyAdjustmentInterval params - 1) in
        assert (nHeightFirst >=? 0) ;;
        let pindexFirst := GetAncestor pindexLast nHeightFirst in
        assert (negb (is_null pindexFirst)) ;;
        let nActualTimespan :=
          GetMedianTimePast pindexLast - GetMedianTimePast pindexFirst in
        let nActualTimespan := Dampen params nActualTimespan in
        LogPrintf (LogBeforeBounds nActualTimespan) ;;
        let nActualTimespan := Bound params nActualTimespan in
        let bnPowLimit := powLimit params in
        let bnNew := Target (nBits last) in
        let bnNew := Retarget params bnNew nActualTimespan in
        bnNew <- (if bnNew >? bnPowLimit
                  then LogPrintf LogAboveLimit ;; ret bnPowLimit
                  else ret bnNew) ;;
        LogPrintf (LogTimespans (nPowTargetTimespan params) nActualTimespan) ;;
        LogPrintf (LogBefore (nBits last) (Target (nBits last))) ;;
        LogPrintf (LogAfter (GetCompact bnNew) bnNew) ;;
        ret (GetCompact bnNew)
  end.

(** The value the retarget branch returns for the block [last] of
    [pindexLast]: the target of its nBits, scaled by the bounded timespan
    between the two medians, capped at powLimit and encoded. *)
Definition retargeted (pindexLast : pindex) (last : CBlockIndex)
    (params : Params) : Z :=
  let pindexFirst :=
    GetAncestor pindexLast
      (nHeight last - (DifficultyAdjustmentInterval params - 1)) in
  let nActualTimespan :=
    Bound params
      (Dampen params
         (GetMedianTimePast pindexLast - GetMedianTimePast pindexFirst)) in
  GetCompact
    (Z.min (Retarget params (Target (nBits last)) nActualTimespan)
           (powLimit params)).

(** The loop of [GetNextWorkRequired]: from [cur], whose [pprev] chain is
    [pprev], back to the last block that is not a special
    minimum-difficulty block. *)
Fixpoint WalkBack (params : Params) (nProofOfWorkLimit : Z)
    (cur : CBlockIndex) (pprev : pindex) {struct pprev} : CBlockIndex :=
  match pprev with
  | [] => cur
  | parent :: older =>
      if negb (Z.rem (nHeight cur) (DifficultyAdjustmentInterval params) =? 0)
         && (nBits cur =? nProofOfWorkLimit)
      then WalkBack params nProofOfWorkLimit parent older
      else cur
  end.

(** The blocks the loop steps over: not on a retarget boundary and at the
    minimum difficulty. *)
Definition special_min_difficulty (params : Params) (limit : Z)
    (b : CBlockIndex) : Prop :=
  Z.rem (nHeight b) (DifficultyAdjustmentInterval params) <> 0
  /\ nBits b = limit.

Definition GetNextWorkRequired
    (pindexLast : pindex) (pblock : CBlockHeader) (params : Params) : Run Z :=
  let nProofOfWorkLimit := GetCompact (powLimit params) in
  match pindexLast with
  | [] => ret nProofOfWorkLimit
  | last :: pprev =>
    if fPowAllowMinDifficultyBlocks params then
      if hdr_GetBlockTime pblock
         >? GetBlockTime last + nPowTargetSpacing params * 2
      then ret nProofOfWorkLimit
      else ret (nBits (WalkBack params nProofOfWorkLimit last pprev))
    else CalculateNextWorkRequired pindexLast 0 params
  end.

Definition CheckProofOfWork (hash nBits : Z) (params : Params) : bool :=
  let bnTarget := Target nBits in
  if fNegative nBits || (bnTarget =? 0) || fOverflow nBits
     || (bnTarget >? powLimit params)
  then false
  else if hash >? bnTarget then false
  else true.

End Pow.

(** A block index as chain.h keeps it: every entry is one above its
    [pprev], and the entry without a [pprev] has a height that is not
    negative. *)
Fixpoint linked (cur : CBlockIndex) (pprev : pindex) : Prop :=
  match pprev with
  | [] => 0 <= nHeight cur
  | parent :: older => nHeight cur = nHeight parent + 1 /\ linked parent older
  end.

(** ** chainparams.cpp *)

From Stdlib Require String.

Module chainparams.

Import String.

(** The positions of [consensus.vDeployments] that chainparams.cpp fills. *)
Inductive DeploymentPos : Type :=
| DEPLOYMENT_TESTDUMMY
| DEPLOYMENT_CSV
| DEPLOYMENT_SEGWIT.

Record BIP9Deployment : Type := mkDeployment {
  bit : Z;
  nStartTime : Z;
  nTimeout : Z
}.

(** The header fields of the block [CreateGenesisBlock] builds; its
    coinbase transaction and the hashes computed from it are left out. *)
Record CBlock : Type := mkBlock {
  blk_nVersion : Z;
  blk_nTime : Z;
  blk_nBits : Z;
  blk_nNonce : Z;
  pszTimestamp : string
}.

Definition CreateGenesisBlock_with (pszTimestamp : string)
    (nTime nNonce nBits nVersion : Z) : CBlock :=
  {| blk_nVersion := nVersion; blk_nTime := nTime; blk_nBits := nBits;
     blk_nNonce := nNonce; pszTimestamp := pszTimestamp |}.

Definition CreateGenesisBlock (nTime nNonce nBits nVersion : Z) : CBlock :=
  CreateGenesisBlock_with
    "The New York Times 13/Feb/2017 Growth Secrets of the Hydra"
    nTime nNonce nBits nVersion.

(** The fields of a [CChainParams] that the constructors set to numbers,
    flags and names; [consensus] holds the proof-of-work fields of
    [Consensus::Params], the other consensus fields stand beside it. *)
Record CChainParams : Type := mkChainParams {
  strNetworkID : string;
  nSubsidyHalvingInterval : Z;
  nMajorityEnforceBlockUpgrade : Z;
  nMajorityRejectBlockOutdated : Z;
  nMajorityWindow : Z;
  BIP34Height : Z;
  consensus : Params;
  nRuleChangeActivationThreshold : Z;
  nMinerConfirmationWindow : Z;
  vDeployments : DeploymentPos -> BIP9Deployment;
  pchMessageStart : list Z;
  nDefaultPort : Z;
  nPruneAfterHeight : Z;
  genesis : CBlock;
  fMiningRequiresPeers : bool;
  fDefaultConsistencyChecks : bool;
  fRequireStandard : bool;
  fMineBlocksOnDemand : bool;
  fTestnetToBeDeprecatedFieldRPC : bool
}.

Definition CMainParams_ctor : CChainParams :=
  {| strNetworkID := "main";
     nSubsidyHalvingInterval := 1100000;
     nMajorityEnforceBlockUpgrade := 750;
     nMajorityRejectBlockOutdated := 950;
     nMajorityWindow := 1000;
     BIP34Height := 0;
     consensus := CMainParams;
     nRuleChangeActivationThreshold := 54;
     nMinerConfirmationWindow := 60;
     vDeployments := fun d =>
       match d with
       | DEPLOYMENT_TESTDUMMY => mkDeployment 28 1199145601 1230767999
       | DEPLOYMENT_CSV => mkDeployment 0 1462060800 1496275200
       | DEPLOYMENT_SEGWIT => mkDeployment 1 1479168000 1496275200
       end;
     pchMessageStart := [0xc3; 0xf1; 0x8d; 0xd2];
     nDefaultPort := 9777;
     nPruneAfterHeight := 100000;
     genesis := CreateGenesisBlock 1487000003 3759359794 0x1d00ffff 1;
     fMiningRequiresPeers := true;
     fDefaultConsistencyChecks := false;
     fRequireStandard := true;
     fMineBlocksOnDemand := false;
     fTestnetToBeDeprecatedFieldRPC := false |}.

Definition CTestNetParams_ctor : CChainParams :=
  {| strNetworkID := "test";
     nSubsidyHalvingInterval := 1100000;
     nMajorityEnforceBlockUpgrade := 51;
     nMajorityRejectBlockOutdated := 75;
     nMajorityWindow := 100;
     BIP34Height := 0;
     consensus := CTestNetParams;
     nRuleChangeActivationThreshold := 45;
     nMinerConfirmationWindow := 60;
     vDeployments := fun d =>
       match d with
       | DEPLOYMENT_TESTDUMMY => mkDeployment 28 1199145601 1230767999
       | DEPLOYMENT_CSV => mkDeployment 0 1456790400 1496275200
       | DEPLOYMENT_SEGWIT => mkDeployment 1 1462060800 1496275200
       end;
     pchMessageStart := [0xba; 0xf8; 0xfb; 0x99];
     nDefaultPort := 19777;
     nPruneAfterHeight := 1000;
     genesis := CreateGenesisBlock 1487000011 668669908 0x1d00ffff 1;
     fMiningRequiresPeers := true;
     fDefaultConsistencyChecks := false;
     fRequireStandard := false;
     fMineBlocksOnDemand := false;
     fTestnetToBeDeprecatedFieldRPC := true |}.

Definition CRegTestParams_ctor : CChainParams :=
  {| strNetworkID := "regtest";
     nSubsidyHalvingInterval := 100;
     nMajorityEnforceBlockUpgrade := 750;
     nMajorityRejectBlockOutdated := 950;
     nMajorityWindow := 1000;
     BIP34Height := -1;
     consensus := CRegTestParams;
     nRuleChangeActivationThreshold := 45;
     nMinerConfirmationWindow := 60;
     vDeployments := fun d =>
       match d with
       | DEPLOYMENT_TESTDUMMY => mkDeployment 28 0 999999999999
       | DEPLOYMENT_CSV => mkDeployment 0 0 999999999999
       | DEPLOYMENT_SEGWIT => mkDeployment 1 0 999999999999
       end;
     pchMessageStart := [0xc5; 0xc7; 0xd1; 0xee];
     nDefaultPort := 19888;
     nPruneAfterHeight := 1000;
     genesis := CreateGenesisBlock 1487000020 0 0x207fffff 1;
     fMiningRequiresPeers := false;
     fDefaultConsistencyChecks := true;
     fRequireStandard := false;
     fMineBlocksOnDemand := true;
     fTestnetToBeDeprecatedFieldRPC := false |}.

(** [CRegTestParams::UpdateBIP9Parameters]: the two assignments to
    [consensus.vDeployments[d]]. *)
Definition UpdateBIP9Parameters (p : CChainParams) (d : DeploymentPos)
    (nStartTime nTimeout : Z) : CChainParams :=
  {| strNetworkID := strNetworkID p;
     nSubsidyHalvingInterval := nSubsidyHalvingInterval p;
     nMajorityEnforceBlockUpgrade := nMajorityEnforceBlockUpgrade p;
     nMajorityRejectBlockOutdated := nMajorityRejectBlockOutdated p;
     nMajorityWindow := nMajorityWindow p;
     BIP34Height := BIP34Height p;
     consensus := consensus p;
     nRuleChangeActivationThreshold := nRuleChangeActivationThreshold p;
     nMinerConfirmationWindow := nMinerConfirmationWindow p;
     vDeployments := fun d' =>
       match d, d' with
       | DEPLOYMENT_TESTDUMMY, DEPLOYMENT_TESTDUMMY
       | DEPLOYMENT_CSV, DEPLOYMENT_CSV
       | DEPLOYMENT_SEGWIT, DEPLOYMENT_SEGWIT =>
           {| bit := bit (vDeployments p d');
              nStartTime := nStartTime; nTimeout := nTimeout |}
       | _, _ => vDeployments p d'
       end;
     pchMessageStart := pchMessageStart p;
     nDefaultPort := nDefaultPort p;
     nPruneAfterHeight := nPruneAfterHeight p;
     genesis := genesis p;
     fMiningRequiresPeers := fMiningRequiresPeers p;
     fDefaultConsistencyChecks := fDefaultConsistencyChecks p;
     fRequireStandard := fRequireStandard p;
     fMineBlocksOnDemand := fMineBlocksOnDemand p;
     fTestnetToBeDeprecatedFieldRPC := fTestnetToBeDeprecatedFieldRPC p |}.

(** The names and the selector of chainparamsbase.h, which is not under
    src/: the three chain names [Params(chain)] compares with, and whether
    [SelectBaseParams] returns for a name (it throws otherwise). *)
Class CBaseChainParams : Type := {
  MAIN : string;
  TESTNET : string;
  REGTEST : string;
  SelectBaseParams : string -> bool
}.

(** Which of the three static objects a [CChainParams&] refers to. *)
Inductive ParamsRef : Type :=
| ref_mainParams
| ref_testNetParams
| ref_regTestParams.

(** The statics of chainparams.cpp. *)
Record Globals : Type := mkGlobals {
  mainParams : CChainParams;
  testNetParams : CChainParams;
  regTestParams : CChainParams;
  pCurrentParams : option ParamsRef
}.

(** The statics after their initialisers have run. *)
Definition startup : Globals :=
  {| mainParams := CMainParams_ctor;
     testNetParams := CTestNetParams_ctor;
     regTestParams := CRegTestParams_ctor;
     pCurrentParams := None |}.

Definition deref (g : Globals) (r : ParamsRef) : CChainParams :=
  match r with
  | ref_mainParams => mainParams g
  | ref_testNetParams => testNetParams g
  | ref_regTestParams => regTestParams g
  end.

(** [const CChainParams &Params()]: no value when the assertion on
    [pCurrentParams] fails. *)
Definition Params_current (g : Globals) : option CChainParams :=
  match pCurrentParams g with
  | Some r => Some (deref g r)
  | None => None
  end.

(** [CChainParams& Params(const std::string& chain)]: the object referred
    to, or no value when [std::runtime_error] is thrown. *)
Definition Params_chain `{CBaseChainParams} (chain : string) : option ParamsRef :=
  if String.eqb chain MAIN then Some ref_mainParams
  else if String.eqb chain TESTNET then Some ref_testNetParams
  else if String.eqb chain REGTEST then Some ref_regTestParams
  else None.

(** [SelectParams]: the statics afterwards, or no value when
    [SelectBaseParams] or [Params(network)] throws; the assignment to
    [pCurrentParams] is then not reached. *)
Definition SelectParams `{CBaseChainParams} (g : Globals) (network : string)
    : option Globals :=
  if SelectBaseParams network then
    match Params_chain network with
    | Some r =>
        Some {| mainParams := mainParams g;
                testNetParams := testNetParams g;
                regTestParams := regTestParams g;
                pCurrentParams := Some r |}
    | None => None
    end
  else None.

Definition UpdateRegtestBIP9Parameters (g : Globals) (d : DeploymentPos)
    (nStartTime nTimeout : Z) : Globals :=
  {| mainParams := mainParams g;
     testNetParams := testNetParams g;
     regTestParams := UpdateBIP9Parameters (regTestParams g) d nStartTime nTimeout;
     pCurrentParams := pCurrentParams g |}.

(** The names of chainparamsbase.cpp as the constructors above spell them
    in [strNetworkID], with a [SelectBaseParams] that knows these three. *)
#[export] Instance base_chain_names : CBaseChainParams :=
  {| MAIN := "main";
     TESTNET := "test";
     REGTEST := "regtest";
     SelectBaseParams := fun chain =>
       String.eqb chain "main" || String.eqb chain "test"
       || String.eqb chain "regtest" |}.

End chainparams.

(** ** Runs *)

Lemma bind_ret {A B : Type} (a : A) (k : A -> Run B) : bind (ret a) k = k a.
Proof. unfold bind, ret. destruct (k a). reflexivity. Qed.

Lemma bind_LogPrintf {B : Type} (line : LogLine) (k : unit -> Run B) :
  bind (LogPrintf line) k = (line :: output (k tt), value (k tt)).
Proof. unfold bind, LogPrintf, output, value. destruct (k tt). reflexivity. Qed.

Lemma bind_assert_true {B : Type} (k : unit -> Run B) :
  bind (assert true) k = k tt.
Proof. apply bind_ret. Qed.

(** ** Integer facts used below *)

Lemma wrap_small (x : Z) :
  0 <= x < 2 ^ 256 -> arith_uint256.wrap x = x.
Proof. intros Hx. unfold arith_uint256.wrap, arith_uint256.WIDTH. apply Z.mod_small. exact Hx. Qed.

Lemma quot_scaled_nonneg (T k : Z) : 0 <= T -> 0 <= k -> 0 <= Z.quot (T * k) 100.
Proof. intros HT Hk. apply Z.quot_pos; nia. Qed.

Lemma quot_scaled_mono (T j k : Z) :
  0 <= T -> j <= k -> Z.quot (T * j) 100 <= Z.quot (T * k) 100.
Proof. intros HT Hjk. apply Z.quot_le_mono; nia. Qed.

(** ** Properties of pow.cpp *)

Section PowProperties.

Context `{CompactCodec} `{ChainView}.

(** *** The limit adjustment step *)

Lemma nMinActualTimespan_eq (params : Params) :
  nMinActualTimespan params = Z.quot (nPowTargetTimespan params * 92) 100.
Proof. reflexivity. Qed.

Lemma nMaxActualTimespan_eq (params : Params) :
  nMaxActualTimespan params = Z.quot (nPowTargetTimespan params * 116) 100.
Proof. reflexivity. Qed.

Lemma Bound_range (params : Params) (a : Z) :
  nMinActualTimespan params <= nMaxActualTimespan params ->
  nMinActualTimespan params <= Bound params a <= nMaxActualTimespan params.
Proof.
  intros Hle. unfold Bound.
  destruct (a <? nMinActualTimespan params) eqn:Hlo.
  - destruct (nMinActualTimespan params >? nMaxActualTimespan params) eqn:Hhi; lia.
  - destruct (a >? nMaxActualTimespan params) eqn:Hhi; lia.
Qed.

Lemma Bound_range_nonneg (params : Params) (a : Z) :
  0 <= nPowTargetTimespan params ->
  0 <= nMinActualTimespan params
  /\ nMinActualTimespan params <= Bound params a <= nMaxActualTimespan params.
Proof.
  intros HT. split.
  - rewrite nMinActualTimespan_eq. apply quot_scaled_nonneg; lia.
  - apply Bound_range. rewrite nMinActualTimespan_eq, nMaxActualTimespan_eq.
    apply quot_scaled_mono; lia.
Qed.

Lemma Bound_fixes_in_range (params : Params) (a : Z) :
  nMinActualTimespan params <= a <= nMaxActualTimespan params ->
  Bound params a = a.
Proof.
  intros Ha. unfold Bound.
  destruct (a <? nMinActualTimespan params) eqn:Hlo; [lia|].
  destruct (a >? nMaxActualTimespan params) eqn:Hhi; lia.
Qed.

(** *** The retarget step *)

Lemma Retarget_exact (params : Params) (bnNew nActualTimespan : Z) :
  0 < nPowTargetTimespan params ->
  0 <= bnNew ->
  0 <= nActualTimespan < 2 ^ 32 ->
  bnNew * nActualTimespan < 2 ^ 256 ->
  Retarget params bnNew nActualTimespan
  = Z.quot (bnNew * nActualTimespan) (nPowTargetTimespan params).
Proof.
  intros HT Hbn Hats Hfit. unfold Retarget, arith_uint256.mul32, arith_uint256.div.
  rewrite (Z.mod_small nActualTimespan) by exact Hats.
  rewrite wrap_small by nia.
  symmetry. apply Z.quot_div_nonneg; nia.
Qed.

(** C4.  Whatever timespan was measured between the two medians, the
    [nActualTimespan] that enters the retarget step, after damping by 4
    with truncating division and the two bounds, lies between
    nPowTargetTimespan*92/100 and nPowTargetTimespan*116/100 (for a target
    timespan that is not negative). *)
Theorem nActualTimespan_within_bounds (params : Params) (measured : Z) :
  0 <= nPowTargetTimespan params ->
  Z.quot (nPowTargetTimespan params * 92) 100
  <= Bound params (Dampen params measured)
  <= Z.quot (nPowTargetTimespan params * 116) 100.
Proof.
  intros HT.
  rewrite <- nMinActualTimespan_eq, <- nMaxActualTimespan_eq.
  apply Bound_range_nonneg. exact HT.
Qed.

(** C2, as amended.  The product [bnNew *= nActualTimespan] is formed
    before the division and is kept in the 256 bits of [bnNew]; when the
    parameters leave room for it (powLimit times the largest bounded
    timespan fits 256 bits, and that timespan fits the 32-bit multiplier),
    then for every target up to powLimit and every measured timespan the
    quotient is the exact truncated quotient of the exact product. *)
Theorem Retarget_exact_when_product_fits
    (params : Params) (bnNew measured : Z) :
  0 < nPowTargetTimespan params ->
  nMaxActualTimespan params < 2 ^ 32 ->
  powLimit params * nMaxActualTimespan params < 2 ^ 256 ->
  0 <= bnNew <= powLimit params ->
  Retarget params bnNew (Bound params (Dampen params measured))
  = Z.quot (bnNew * Bound params (Dampen params measured))
           (nPowTargetTimespan params).
Proof.
  intros HT H32 Hroom Hbn.
  destruct (Bound_range_nonneg params (Dampen params measured)) as [Hmin Hb];
    [lia|].
  apply Retarget_exact; [exact HT | lia | lia | nia].
Qed.

(** C5, as amended.  With nPowTargetTimespan = 1800 and
    nPowTargetSpacing = 30 the adjustment interval is 60; a measured
    timespan of exactly 1800 passes the damping and the bounds unchanged,
    and the retarget step returns the starting target itself whenever
    1800 times that target fits 256 bits. *)
Theorem Retarget_identity_at_target_timespan (params : Params) (bnNew : Z) :
  nPowTargetTimespan params = 1800 ->
  nPowTargetSpacing params = 30 ->
  0 <= bnNew ->
  bnNew * 1800 < 2 ^ 256 ->
  DifficultyAdjustmentInterval params = 60
  /\ Dampen params (nPowTargetTimespan params) = 1800
  /\ Bound params (Dampen params (nPowTargetTimespan params)) = 1800
  /\ Retarget params bnNew
       (Bound params (Dampen params (nPowTargetTimespan params))) = bnNew.
Proof.
  intros HT HS Hbn Hfit.
  assert (HD : Dampen params (nPowTargetTimespan params) = 1800).
  { unfold Dampen. rewrite HT. reflexivity. }
  assert (HB : Bound params 1800 = 1800).
  { apply Bound_fixes_in_range.
    rewrite nMinActualTimespan_eq, nMaxActualTimespan_eq, HT.
    split; [ discriminate | discriminate ]. }
  repeat split.
  - unfold DifficultyAdjustmentInterval. rewrite HT, HS. reflexivity.
  - exact HD.
  - rewrite HD. exact HB.
  - rewrite HD, HB. rewrite Retarget_exact; rewrite ?HT; try lia.
    apply Z.quot_mul. discriminate.
Qed.

(** C6.  With fPowNoRetargeting set, [CalculateNextWorkRequired] returns
    the nBits of the block it is given, for every height, every timestamp
    of the block and of its ancestors, and every chain view; it logs
    nothing. *)
Theorem CalculateNextWorkRequired_no_retargeting
    (pindexLast : pindex) (last : CBlockIndex) (pprev : pindex)
    (nFirstBlockTime : Z) (params : Params) :
  pindexLast = last :: pprev ->
  fPowNoRetargeting params = true ->
  CalculateNextWorkRequired pindexLast nFirstBlockTime params
  = ([], Some (nBits last)).
Proof.
  intros -> Hno. unfold CalculateNextWorkRequired. rewrite Hno. reflexivity.
Qed.

(** C10.  [CalculateNextWorkRequired] does not read its nFirstBlockTime
    argument: two calls that differ only in it give the same run, log and
    compact target alike. *)
Theorem CalculateNextWorkRequired_ignores_nFirstBlockTime
    (pindexLast : pindex) (nFirstBlockTime nFirstBlockTime' : Z)
    (params : Params) :
  CalculateNextWorkRequired pindexLast nFirstBlockTime params
  = CalculateNextWorkRequired pindexLast nFirstBlockTime' params.
Proof. reflexivity. Qed.

(** C1, as amended.  [CheckProofOfWork] returns false whenever decoding
    nBits raises the negative flag or the overflow flag, or gives a target
    that is 0 or above powLimit; otherwise it returns true exactly when
    the hash is at most the target.  So it accepts exactly when no flag is
    raised, the target is not 0 and hash <= target <= powLimit. *)
Theorem CheckProofOfWork_accepts_exactly (hash nBits : Z) (params : Params) :
  ((fNegative nBits = true \/ fOverflow nBits = true
    \/ Target nBits = 0 \/ Target nBits > powLimit params) ->
   CheckProofOfWork hash nBits params = false)
  /\ ((fNegative nBits = false /\ fOverflow nBits = false
       /\ Target nBits <> 0 /\ Target nBits <= powLimit params) ->
      (CheckProofOfWork hash nBits params = true <-> hash <= Target nBits))
  /\ (CheckProofOfWork hash nBits params = true <->
      fNegative nBits = false /\ fOverflow nBits = false
      /\ Target nBits <> 0 /\ hash <= Target nBits <= powLimit params).
Proof.
  unfold CheckProofOfWork.
  destruct (fNegative nBits), (fOverflow nBits),
    (Z.eqb_spec (Target nBits) 0),
    (Z.gtb_spec (Target nBits) (powLimit params)),
    (Z.gtb_spec hash (Target nBits)); cbn;
    repeat split; intros; intuition (try discriminate; try lia).
Qed.

(** *** The bootstrap branch of [CalculateNextWorkRequired] *)

Lemma CalculateNextWorkRequired_bootstrap
    (last : CBlockIndex) (pprev : pindex) (t : Z) (params : Params) :
  fPowNoRetargeting params = false ->
  nHeight last < DifficultyAdjustmentInterval params ->
  CalculateNextWorkRequired (last :: pprev) t params
  = ([LogHeightBefore (nHeight last); LogUseDefaultPowLimit],
     Some (GetCompact (powLimit params))).
Proof.
  intros Hno Hlt. unfold CalculateNextWorkRequired. rewrite Hno.
  apply Z.ltb_lt in Hlt. rewrite Hlt. reflexivity.
Qed.

Lemma CalculateNextWorkRequired_retarget
    (last : CBlockIndex) (pprev : pindex) (t : Z) (params : Params) :
  fPowNoRetargeting params = false ->
  DifficultyAdjustmentInterval params <= nHeight last ->
  ~ In LogUseDefaultPowLimit
      (output (CalculateNextWorkRequired (last :: pprev) t params))
  /\ (is_null (GetAncestor (last :: pprev)
                 (nHeight last - (DifficultyAdjustmentInterval params - 1)))
      = false ->
      value (CalculateNextWorkRequired (last :: pprev) t params)
      = Some (retargeted (last :: pprev) last params)).
Proof.
  intros Hno Hge. unfold CalculateNextWorkRequired, retargeted.
  rewrite Hno.
  assert (Hlt : (nHeight last <? DifficultyAdjustmentInterval params) = false)
    by (apply Z.ltb_ge; exact Hge).
  rewrite Hlt.
  assert (Hfirst : (nHeight last - (DifficultyAdjustmentInterval params - 1)
                    >=? 0) = true)
    by (apply Z.geb_le; lia).
  rewrite Hfirst.
  set (pindexFirst := GetAncestor (last :: pprev) _).
  set (ats := Bound params _).
  set (bnNew := Retarget params _ ats).
  rewrite bind_LogPrintf, bind_assert_true.
  destruct (is_null pindexFirst) eqn:Hnull; cbn [negb assert].
  - split; [|discriminate]. cbn. intros [Hin|[]]. discriminate Hin.
  - rewrite bind_ret, bind_LogPrintf.
    destruct (Z.gtb_spec bnNew (powLimit params)) as [Hgt|Hle].
    + rewrite (Z.min_r bnNew (powLimit params)) by lia.
      cbn. split; [|reflexivity].
      intuition discriminate.
    + rewrite (Z.min_l bnNew (powLimit params)) by lia.
      cbn. split; [|reflexivity].
      intuition discriminate.
Qed.

(** C3, as amended.  With fPowNoRetargeting off, the bootstrap branch is
    taken exactly for the blocks whose height is below the adjustment
    interval: every such block (so every block with height + 1 below the
    interval) gets the encoded powLimit, and every block whose height is
    at least the interval takes the retarget branch, which returns the
    retargeted value once the ancestor at the start of the window is
    found. *)
Theorem CalculateNextWorkRequired_bootstrap_threshold
    (pindexLast : pindex) (last : CBlockIndex) (pprev : pindex)
    (nFirstBlockTime : Z) (params : Params) :
  pindexLast = last :: pprev ->
  fPowNoRetargeting params = false ->
  (nHeight last + 1 < DifficultyAdjustmentInterval params ->
   value (CalculateNextWorkRequired pindexLast nFirstBlockTime params)
   = Some (GetCompact (powLimit params)))
  /\ (nHeight last < DifficultyAdjustmentInterval params ->
      CalculateNextWorkRequired pindexLast nFirstBlockTime params
      = ([LogHeightBefore (nHeight last); LogUseDefaultPowLimit],
         Some (GetCompact (powLimit params))))
  /\ (DifficultyAdjustmentInterval params <= nHeight last ->
      ~ In LogUseDefaultPowLimit
          (output (CalculateNextWorkRequired pindexLast nFirstBlockTime params))
      /\ (is_null (GetAncestor pindexLast
                     (nHeight last
                      - (DifficultyAdjustmentInterval params - 1)))
          = false ->
          value (CalculateNextWorkRequired pindexLast nFirstBlockTime params)
          = Some (retargeted pindexLast last params))).
Proof.
  intros -> Hno. split; [|split].
  - intros Hlt.
    rewrite CalculateNextWorkRequired_bootstrap by (assumption || lia).
    reflexivity.
  - intros Hlt. apply CalculateNextWorkRequired_bootstrap; assumption.
  - intros Hge. apply CalculateNextWorkRequired_retarget; assumption.
Qed.

(** *** [GetNextWorkRequired] *)

(** C9.  Called with no last block, [GetNextWorkRequired] returns the
    encoded powLimit for every parameter set, header and chain view, and
    leaves the log empty: the retarget engine is not run. *)
Theorem GetNextWorkRequired_genesis (pblock : CBlockHeader) (params : Params) :
  GetNextWorkRequired [] pblock params
  = ([], Some (GetCompact (powLimit params))).
Proof. reflexivity. Qed.

(** C7.  With fPowAllowMinDifficultyBlocks set and a last block present,
    a candidate whose time is more than twice nPowTargetSpacing past the
    time of the last block gets the encoded powLimit. *)
Theorem GetNextWorkRequired_min_difficulty_gap
    (pindexLast : pindex) (last : CBlockIndex) (pprev : pindex)
    (pblock : CBlockHeader) (params : Params) :
  pindexLast = last :: pprev ->
  fPowAllowMinDifficultyBlocks params = true ->
  hdr_GetBlockTime pblock
  > GetBlockTime last + 2 * nPowTargetSpacing params ->
  GetNextWorkRequired pindexLast pblock params
  = ([], Some (GetCompact (powLimit params))).
Proof.
  intros -> Hallow Hgap. unfold GetNextWorkRequired. rewrite Hallow.
  destruct (Z.gtb_spec (hdr_GetBlockTime pblock)
              (GetBlockTime last + nPowTargetSpacing params * 2)); [reflexivity|lia].
Qed.

Lemma WalkBack_stops_at_first (params : Params) (limit : Z) (pprev : pindex) :
  forall cur : CBlockIndex,
  exists (skipped : list CBlockIndex) (older : pindex),
    cur :: pprev = skipped ++ WalkBack params limit cur pprev :: older
    /\ Forall (special_min_difficulty params limit) skipped
    /\ (older = []
        \/ ~ special_min_difficulty params limit
               (WalkBack params limit cur pprev)).
Proof.
  induction pprev as [|parent older IH]; intros cur.
  - exists [], []. cbn. auto.
  - cbn [WalkBack].
    destruct (Z.eqb_spec (Z.rem (nHeight cur)
                            (DifficultyAdjustmentInterval params)) 0)
      as [Hrem|Hrem]; cbn [negb andb].
    + exists [], (parent :: older). cbn. repeat split; auto.
      right. intros [Hn _]. contradiction.
    + destruct (Z.eqb_spec (nBits cur) limit) as [Hbits|Hbits].
      * destruct (IH parent) as (skipped & older' & Heq & Hall & Hstop).
        exists (cur :: skipped), older'. cbn. rewrite Heq.
        repeat split; auto. constructor; [split|]; assumption.
      * exists [], (parent :: older). cbn. repeat split; auto.
        right. intros [_ Hb]. contradiction.
Qed.

(** C8.  With fPowAllowMinDifficultyBlocks set and the candidate's time
    not past the gap, [GetNextWorkRequired] returns the nBits of the
    block [stop] at which the walk from the last block ends: every block
    before it on the way is off the retarget boundary and at the encoded
    powLimit (and has a parent, [stop] at the least), and [stop] has no
    parent, or is on a boundary, or is not at the encoded powLimit.  A
    last block on a boundary is its own [stop]. *)
Theorem GetNextWorkRequired_walk_back
    (pindexLast : pindex) (last : CBlockIndex) (pprev : pindex)
    (pblock : CBlockHeader) (params : Params) :
  pindexLast = last :: pprev ->
  fPowAllowMinDifficultyBlocks params = true ->
  hdr_GetBlockTime pblock
  <= GetBlockTime last + 2 * nPowTargetSpacing params ->
  (exists (skipped : list CBlockIndex) (stop : CBlockIndex) (older : pindex),
     pindexLast = skipped ++ stop :: older
     /\ Forall (fun b =>
                  Z.rem (nHeight b) (DifficultyAdjustmentInterval params) <> 0
                  /\ nBits b = GetCompact (powLimit params)) skipped
     /\ (older = []
         \/ Z.rem (nHeight stop) (DifficultyAdjustmentInterval params) = 0
         \/ nBits stop <> GetCompact (powLimit params))
     /\ GetNextWorkRequired pindexLast pblock params
        = ([], Some (nBits stop)))
  /\ (Z.rem (nHeight last) (DifficultyAdjustmentInterval params) = 0 ->
      GetNextWorkRequired pindexLast pblock params
      = ([], Some (nBits last))).
Proof.
  intros -> Hallow Hgap.
  assert (Hrun : GetNextWorkRequired (last :: pprev) pblock params
                 = ([], Some (nBits (WalkBack params
                                       (GetCompact (powLimit params))
                                       last pprev)))).
  { unfold GetNextWorkRequired. rewrite Hallow.
    destruct (Z.gtb_spec (hdr_GetBlockTime pblock)
                (GetBlockTime last + nPowTargetSpacing params * 2));
      [lia|reflexivity]. }
  split.
  - destruct (WalkBack_stops_at_first params (GetCompact (powLimit params))
                pprev last) as (skipped & older & Heq & Hall & Hstop).
    exists skipped, (WalkBack params (GetCompact (powLimit params)) last pprev),
      older.
    repeat split; try assumption.
    destruct Hstop as [Hnil|Hnot]; [left; exact Hnil|right].
    unfold special_min_difficulty in Hnot.
    destruct (Z.eq_dec (Z.rem (nHeight (WalkBack params
                                          (GetCompact (powLimit params))
                                          last pprev))
                          (DifficultyAdjustmentInterval params)) 0)
      as [Hz|Hnz]; [left; exact Hz|right].
    intros Hb. apply Hnot. split; assumption.
  - intros Hrem. rewrite Hrun. destruct pprev as [|parent older]; cbn [WalkBack].
    + reflexivity.
    + rewrite Hrem. reflexivity.
Qed.

End PowProperties.

(** ** The functions on concrete inputs *)

(** The codec agrees with chainparams.cpp: the powLimit of the main network
    encodes to the nBits of its genesis block, and so does the regtest one. *)
Example GetCompact_main_powLimit :
  GetCompact (powLimit CMainParams) = 0x1d00ffff
  /\ GetCompact (powLimit CRegTestParams) = 0x207fffff
  /\ Target 0x1d00ffff = 0xffff * 2 ^ 208.
Proof. repeat split; vm_compute; reflexivity. Qed.

(** C4 on the main network: a measured timespan of 1000000 seconds enters
    the retarget step as 2088, and one of 0 seconds as 1656. *)
Lemma nActualTimespan_within_bounds_main :
  0 <= nPowTargetTimespan CMainParams
  /\ 1656 <= Bound CMainParams (Dampen CMainParams 1000000) <= 2088
  /\ Bound CMainParams (Dampen CMainParams 1000000) = 2088
  /\ Bound CMainParams (Dampen CMainParams 0) = 1656.
Proof.
  split; [vm_compute; discriminate|].
  split; [|split; reflexivity].
  apply (nActualTimespan_within_bounds CMainParams 1000000).
  vm_compute; discriminate.
Defined.

(** C2 on the main network: at powLimit itself and the largest bounded
    timespan the product still fits, and the quotient is exact. *)
Lemma Retarget_exact_main :
  0 < nPowTargetTimespan CMainParams
  /\ nMaxActualTimespan CMainParams < 2 ^ 32
  /\ powLimit CMainParams * nMaxActualTimespan CMainParams < 2 ^ 256
  /\ 0 <= powLimit CMainParams <= powLimit CMainParams
  /\ Retarget CMainParams (powLimit CMainParams)
       (Bound CMainParams (Dampen CMainParams 1000000))
     = Z.quot (powLimit CMainParams * 2088) 1800.
Proof.
  assert (H1 : 0 < nPowTargetTimespan CMainParams) by reflexivity.
  assert (H2 : nMaxActualTimespan CMainParams < 2 ^ 32) by reflexivity.
  assert (H3 : powLimit CMainParams * nMaxActualTimespan CMainParams < 2 ^ 256)
    by reflexivity.
  assert (H4 : 0 <= powLimit CMainParams <= powLimit CMainParams)
    by (split; vm_compute; discriminate).
  repeat (split; [assumption|]).
  exact (Retarget_exact_when_product_fits CMainParams (powLimit CMainParams)
           1000000 H1 H2 H3 H4).
Defined.

(** C2 as first stated fails where the limit leaves no room: under the
    regtest limit, the regtest genesis target 0x207fffff is a target below
    powLimit, 1793 is a bounded timespan (that of blocks every 30 seconds),
    and the 256-bit product loses its top bits, so the quotient is not the
    exact one and the block gets 0x1f123357 instead of 0x207f8090.  The
    exact quotient is out of reach of the division whatever 256 bits the
    product leaves in [bnNew]: it exceeds (2^256 - 1) / 1800. *)
Lemma Retarget_truncates_under_regtest_limit :
  0 <= Target 0x207fffff <= powLimit retargeting_regtest
  /\ Bound retargeting_regtest (Dampen retargeting_regtest 1770) = 1793
  /\ Retarget retargeting_regtest (Target 0x207fffff) 1793
     = 32157594326365723461619234437268272899999304163573989175908547554457384823
  /\ Z.quot (Target 0x207fffff * 1793) (nPowTargetTimespan retargeting_regtest)
     = 57670886459123760778750287327650804626527725004393543644372572587048993027813
  /\ value (CalculateNextWorkRequired (chain_down 80 easy_block) 0
              retargeting_regtest) = Some 0x1f123357
  /\ GetCompact (Z.quot (Target 0x207fffff * 1793)
                   (nPowTargetTimespan retargeting_regtest)) = 0x207f8090
  /\ (2 ^ 256 - 1) / nPowTargetTimespan retargeting_regtest
     < Z.quot (Target 0x207fffff * 1793)
         (nPowTargetTimespan retargeting_regtest).
Proof.
  split; [split; vm_compute; discriminate|].
  repeat split; vm_compute; reflexivity.
Qed.

(** C5 on the main network: the target of the genesis nBits is returned
    unchanged. *)
Lemma Retarget_identity_main :
  nPowTargetTimespan CMainParams = 1800
  /\ nPowTargetSpacing CMainParams = 30
  /\ 0 <= Target 0x1d00ffff
  /\ Target 0x1d00ffff * 1800 < 2 ^ 256
  /\ DifficultyAdjustmentInterval CMainParams = 60
  /\ Retarget CMainParams (Target 0x1d00ffff)
       (Bound CMainParams (Dampen CMainParams (nPowTargetTimespan CMainParams)))
     = Target 0x1d00ffff.
Proof.
  assert (H3 : 0 <= Target 0x1d00ffff) by (vm_compute; discriminate).
  assert (H4 : Target 0x1d00ffff * 1800 < 2 ^ 256) by (vm_compute; reflexivity).
  pose proof (Retarget_identity_at_target_timespan CMainParams
                (Target 0x1d00ffff) eq_refl eq_refl H3 H4)
    as (Hint & _ & _ & Hid).
  repeat (split; [reflexivity || assumption|]).
  exact Hid.
Defined.

(** C5 as first stated fails for a large starting target: all three
    networks have a timespan of 1800 and a spacing of 30, a measured
    timespan of 1800 is left at 1800, and yet the retarget step maps the
    regtest genesis target 0x207fffff to a smaller value; no 256-bit
    product divided by 1800 reaches that target. *)
Lemma Retarget_identity_fails_for_regtest_target :
  Forall (fun params => nPowTargetTimespan params = 1800
                        /\ nPowTargetSpacing params = 30)
         [CMainParams; CTestNetParams; CRegTestParams]
  /\ 0 <= Target 0x207fffff <= powLimit CRegTestParams
  /\ Bound CRegTestParams
       (Dampen CRegTestParams (nPowTargetTimespan CRegTestParams)) = 1800
  /\ Retarget CRegTestParams (Target 0x207fffff) 1800
     = 64322036718828873560418668026742116226364207038605920746476828591283494948
  /\ Retarget CRegTestParams (Target 0x207fffff) 1800 < Target 0x207fffff
  /\ (2 ^ 256 - 1) / nPowTargetTimespan CRegTestParams < Target 0x207fffff.
Proof.
  split; [repeat constructor|].
  split; [split; vm_compute; discriminate|].
  repeat split; vm_compute; reflexivity.
Qed.

(** C1 as first stated fails on rejected encodings: the target 0 of
    nBits = 0 satisfies hash <= target <= powLimit for the hash 0, and so
    does the target of the negative encoding 0x1c8fffff for the hash 1, and
    both are rejected. *)
Lemma CheckProofOfWork_rejects_within_limit :
  (0 <= Target 0 <= powLimit CMainParams
   /\ CheckProofOfWork 0 0 CMainParams = false)
  /\ (fNegative 0x1c8fffff = true
      /\ 1 <= Target 0x1c8fffff <= powLimit CMainParams
      /\ CheckProofOfWork 1 0x1c8fffff CMainParams = false).
Proof.
  split; [split|split; [|split]];
    try reflexivity; split; vm_compute; discriminate.
Qed.

(** C6 on the regtest network: eighty blocks on, the target is still the
    genesis one. *)
Lemma no_retargeting_regtest :
  fPowNoRetargeting CRegTestParams = true
  /\ CalculateNextWorkRequired (chain_down 80 easy_block) 0 CRegTestParams
     = ([], Some 0x207fffff).
Proof.
  split; [reflexivity|].
  exact (CalculateNextWorkRequired_no_retargeting
           (chain_down 80 easy_block) (easy_block 80) (chain_down 79 easy_block)
           0 CRegTestParams eq_refl eq_refl).
Defined.

(** C3 on the main network: at height 58 the bootstrap value, at height 80
    the retargeted one (blocks every 60 seconds ease the target to
    0x1c0128f4). *)
Lemma bootstrap_threshold_main :
  fPowNoRetargeting CMainParams = false
  /\ value (CalculateNextWorkRequired (chain_down 58 slow_block) 0 CMainParams)
     = Some 0x1d00ffff
  /\ ~ In LogUseDefaultPowLimit
         (output (CalculateNextWorkRequired (chain_down 80 slow_block) 0
                    CMainParams))
  /\ value (CalculateNextWorkRequired (chain_down 80 slow_block) 0 CMainParams)
     = Some 0x1c0128f4.
Proof.
  split; [reflexivity|].
  pose proof (CalculateNextWorkRequired_bootstrap_threshold
                (chain_down 58 slow_block) (slow_block 58)
                (chain_down 57 slow_block) 0 CMainParams eq_refl eq_refl)
    as (Hboot & _ & _).
  pose proof (CalculateNextWorkRequired_bootstrap_threshold
                (chain_down 80 slow_block) (slow_block 80)
                (chain_down 79 slow_block) 0 CMainParams eq_refl eq_refl)
    as (_ & _ & Hretarget).
  split; [exact (Hboot eq_refl)|].
  assert (Hge : DifficultyAdjustmentInterval CMainParams
                <= nHeight (slow_block 80)) by (vm_compute; discriminate).
  destruct (Hretarget Hge) as (Hlog & Hval).
  split; [exact Hlog|exact (Hval eq_refl)].
Defined.

(** C3 as first stated fails at height = interval - 1: on the main network
    (interval 60) the block at height 59 has height + 1 >= interval and its
    ancestor at height 0 is there, yet the bootstrap branch is taken. *)
Lemma bootstrap_taken_at_interval_minus_one :
  fPowNoRetargeting CMainParams = false
  /\ nHeight (steady_block 59) = DifficultyAdjustmentInterval CMainParams - 1
  /\ nHeight (steady_block 59) + 1 >= DifficultyAdjustmentInterval CMainParams
  /\ is_null (GetAncestor (chain_down 59 steady_block) 0) = false
  /\ CalculateNextWorkRequired (chain_down 59 steady_block) 0 CMainParams
     = ([LogHeightBefore 59; LogUseDefaultPowLimit], Some 0x1d00ffff)
  /\ retargeted (chain_down 59 steady_block) (steady_block 59) CMainParams
     < 0x1d00ffff.
Proof.
  split; [reflexivity|]. split; [reflexivity|].
  split; [vm_compute; discriminate|].
  repeat split; vm_compute; reflexivity.
Qed.

(** C7 on the test network: a candidate 61 seconds after its parent gets
    the minimum difficulty, whatever the parent's own target. *)
Lemma min_difficulty_gap_testnet :
  fPowAllowMinDifficultyBlocks CTestNetParams = true
  /\ hdr_GetBlockTime (mkBlockHeader (1487000303 + 61) 0)
     > GetBlockTime (steady_block 10) + 2 * nPowTargetSpacing CTestNetParams
  /\ nBits (steady_block 10) = 0x1c00ffff
  /\ GetNextWorkRequired (chain_down 10 steady_block)
       (mkBlockHeader (1487000303 + 61) 0) CTestNetParams
     = ([], Some 0x1d00ffff).
Proof.
  assert (Hgap : hdr_GetBlockTime (mkBlockHeader (1487000303 + 61) 0)
                 > GetBlockTime (steady_block 10)
                   + 2 * nPowTargetSpacing CTestNetParams) by reflexivity.
  split; [reflexivity|]. split; [exact Hgap|]. split; [reflexivity|].
  exact (GetNextWorkRequired_min_difficulty_gap
           (chain_down 10 steady_block) (steady_block 10)
           (chain_down 9 steady_block) (mkBlockHeader (1487000303 + 61) 0)
           CTestNetParams eq_refl eq_refl Hgap).
Defined.

(** C8 on the walk-back scenario of the spec: from C at height 60, a
    boundary block at the minimum difficulty, the walk stops at C itself. *)
Lemma walk_back_stops_at_boundary :
  fPowAllowMinDifficultyBlocks CTestNetParams = true
  /\ hdr_GetBlockTime (mkBlockHeader (1487001803 + 30) 0)
     <= 1487001803 + 2 * nPowTargetSpacing CTestNetParams
  /\ GetNextWorkRequired walk_back_chain (mkBlockHeader (1487001803 + 30) 0)
       CTestNetParams
     = ([], Some 0x1d00ffff).
Proof.
  assert (Hgap : hdr_GetBlockTime (mkBlockHeader (1487001803 + 30) 0)
                 <= 1487001803 + 2 * nPowTargetSpacing CTestNetParams)
    by (vm_compute; discriminate).
  split; [reflexivity|]. split; [exact Hgap|].
  exact (proj2 (GetNextWorkRequired_walk_back walk_back_chain
                  {| nHeight := 60; nTime := 1487001803; nBits := 0x1d00ffff |}
                  ({| nHeight := 59; nTime := 1487001773; nBits := 0x1d00ffff |}
                   :: chain_down 58 steady_block)
                  (mkBlockHeader (1487001803 + 30) 0) CTestNetParams
                  eq_refl eq_refl Hgap) eq_refl).
Defined.

(** The walk does move when the last block is off the boundary: from B at
    height 59 it passes B, at the minimum difficulty, and stops at A with
    its normal target. *)
Example walk_back_passes_special_block :
  GetNextWorkRequired (tl walk_back_chain) (mkBlockHeader (1487001773 + 30) 0)
    CTestNetParams
  = ([], Some 0x1c00ffff).
Proof. vm_compute. reflexivity. Qed.


(** ** Further properties of pow.cpp *)

Section PowFurther.

Context `{CompactCodec} `{ChainView}.

Lemma timespan_bounds_around_target (params : Params) :
  0 <= nPowTargetTimespan params ->
  0 <= nMinActualTimespan params <= nPowTargetTimespan params
  /\ nPowTargetTimespan params <= nMaxActualTimespan params.
Proof.
  intros HT. rewrite nMinActualTimespan_eq, nMaxActualTimespan_eq.
  Z.to_euclidean_division_equations. lia.
Qed.

Lemma Dampen_mono (params : Params) (m m' : Z) :
  m <= m' -> Dampen params m <= Dampen params m'.
Proof.
  intros Hm. unfold Dampen. apply Z.add_le_mono_l.
  Z.to_euclidean_division_equations. lia.
Qed.

Lemma Bound_mono (params : Params) (a a' : Z) :
  a <= a' -> Bound params a <= Bound params a'.
Proof.
  intros Ha. unfold Bound.
  destruct (a <? nMinActualTimespan params) eqn:E1,
           (a' <? nMinActualTimespan params) eqn:E2;
  repeat match goal with
         | |- context [?x >? ?y] => destruct (Z.gtb_spec x y)
         end; lia.
Qed.

(** X1.  The damping keeps the side of the target timespan the measurement is
    on and divides its distance from it by 4, rounding toward the target;
    a measurement less than 4 seconds off counts as on target. *)
Theorem Dampen_contracts (params : Params) (measured : Z) :
  (nPowTargetTimespan params <= measured ->
   nPowTargetTimespan params <= Dampen params measured <= measured)
  /\ (measured <= nPowTargetTimespan params ->
      measured <= Dampen params measured <= nPowTargetTimespan params)
  /\ 4 * Z.abs (Dampen params measured - nPowTargetTimespan params)
     <= Z.abs (measured - nPowTargetTimespan params)
  /\ (Z.abs (measured - nPowTargetTimespan params) < 4 ->
      Dampen params measured = nPowTargetTimespan params).
Proof.
  unfold Dampen. repeat split; intros;
    Z.to_euclidean_division_equations; lia.
Qed.

(** X2.  The bounded timespan no longer moves once the measurement is four
    times the allowed step away from the target: from
    T + 4 (nMaxActualTimespan - T) upward it is nMaxActualTimespan, from
    T - 4 (T - nMinActualTimespan) downward it is nMinActualTimespan. *)
Theorem Bound_Dampen_saturates (params : Params) (measured : Z) :
  0 <= nPowTargetTimespan params ->
  (nPowTargetTimespan params
   + 4 * (nMaxActualTimespan params - nPowTargetTimespan params) <= measured ->
   Bound params (Dampen params measured) = nMaxActualTimespan params)
  /\ (measured <= nPowTargetTimespan params
                  - 4 * (nPowTargetTimespan params - nMinActualTimespan params) ->
      Bound params (Dampen params measured) = nMinActualTimespan params).
Proof.
  intros HT. destruct (timespan_bounds_around_target params HT) as [Hlo Hhi].
  unfold Bound, Dampen. split; intros Hm.
  - destruct (Z.ltb_spec
                (nPowTargetTimespan params
                 + Z.quot (measured - nPowTargetTimespan params) 4)
                (nMinActualTimespan params)) as [Hb|Hb].
    + exfalso. revert Hb. Z.to_euclidean_division_equations. lia.
    + match goal with |- context [?x >? ?y] => destruct (Z.gtb_spec x y) end;
        [reflexivity|].
      Z.to_euclidean_division_equations. lia.
  - destruct (Z.ltb_spec
                (nPowTargetTimespan params
                 + Z.quot (measured - nPowTargetTimespan params) 4)
                (nMinActualTimespan params)) as [Hb|Hb].
    + match goal with |- context [?x >? ?y] => destruct (Z.gtb_spec x y) end;
        lia.
    + match goal with |- context [?x >? ?y] => destruct (Z.gtb_spec x y) end.
      * exfalso. Z.to_euclidean_division_equations. lia.
      * Z.to_euclidean_division_equations. lia.
Qed.

Lemma Retarget_quotient (params : Params) (bnNew measured : Z) :
  0 < nPowTargetTimespan params ->
  nMaxActualTimespan params < 2 ^ 32 ->
  0 <= bnNew ->
  bnNew * nMaxActualTimespan params < 2 ^ 256 ->
  Retarget params bnNew (Bound params (Dampen params measured))
  = bnNew * Bound params (Dampen params measured) / nPowTargetTimespan params.
Proof.
  intros HT H32 Hbn Hroom.
  destruct (Bound_range_nonneg params (Dampen params measured)) as [Hmin Hb];
    [lia|].
  rewrite Retarget_exact; [|exact HT|exact Hbn|lia|nia].
  apply Z.quot_div_nonneg; nia.
Qed.

(** X3.  One retarget step moves the target by a bounded ratio.  When the
    product fits the 256 bits, the new value lies between the quotients for
    nMinActualTimespan and nMaxActualTimespan, so it is at most 116/100 of
    the old one, and at least 92/100 of it when the target timespan is a
    multiple of 25 seconds. *)
Theorem Retarget_within_ratio (params : Params) (bnNew measured : Z) :
  0 < nPowTargetTimespan params ->
  nMaxActualTimespan params < 2 ^ 32 ->
  0 <= bnNew ->
  bnNew * nMaxActualTimespan params < 2 ^ 256 ->
  bnNew * nMinActualTimespan params / nPowTargetTimespan params
  <= Retarget params bnNew (Bound params (Dampen params measured))
  <= bnNew * nMaxActualTimespan params / nPowTargetTimespan params
  /\ Retarget params bnNew (Bound params (Dampen params measured))
     <= bnNew * 116 / 100
  /\ (Z.rem (nPowTargetTimespan params) 25 = 0 ->
      bnNew * 92 / 100
      <= Retarget params bnNew (Bound params (Dampen params measured))).
Proof.
  intros HT H32 Hbn Hroom.
  rewrite Retarget_quotient by assumption.
  destruct (Bound_range_nonneg params (Dampen params measured)) as [Hmin Hb];
    [lia|].
  set (ats := Bound params (Dampen params measured)) in *.
  assert (Hlow : bnNew * nMinActualTimespan params / nPowTargetTimespan params
                 <= bnNew * ats / nPowTargetTimespan params)
    by (apply Z.div_le_mono; nia).
  assert (Hup : bnNew * ats / nPowTargetTimespan params
                <= bnNew * nMaxActualTimespan params / nPowTargetTimespan params)
    by (apply Z.div_le_mono; nia).
  split; [split; assumption|]. split.
  - etransitivity; [exact Hup|].
    apply Z.div_le_lower_bound; [lia|].
    pose proof (Z.mul_div_le (bnNew * nMaxActualTimespan params)
                  (nPowTargetTimespan params) HT) as Hq.
    assert (Hmax : 100 * nMaxActualTimespan params
                   <= nPowTargetTimespan params * 116).
    { rewrite nMaxActualTimespan_eq. Z.to_euclidean_division_equations. lia. }
    set (q := bnNew * nMaxActualTimespan params / nPowTargetTimespan params) in *.
    apply (Z.mul_le_mono_pos_l _ _ (nPowTargetTimespan params) HT).
    nia.
  - intros H25. etransitivity; [|exact Hlow].
    apply Z.div_le_lower_bound; [lia|].
    assert (Hmineq : 100 * nMinActualTimespan params
                     = nPowTargetTimespan params * 92).
    { rewrite nMinActualTimespan_eq. revert H25.
      Z.to_euclidean_division_equations. lia. }
    assert (Hp : 100 * (bnNew * 92 / 100) <= bnNew * 92)
      by (apply Z.mul_div_le; lia).
    set (q := bnNew * 92 / 100) in *.
    apply (Z.mul_le_mono_pos_l _ _ 100); [lia|].
    nia.
Qed.

(** X4.  The retarget step follows the clock.  When the product fits the 256
    bits, a longer measured timespan never gives a smaller target; a
    measurement at or above the target timespan never tightens the target,
    and one at or below it never eases it. *)
Theorem Retarget_follows_timespan (params : Params) (bnNew measured : Z) :
  0 < nPowTargetTimespan params ->
  nMaxActualTimespan params < 2 ^ 32 ->
  0 <= bnNew ->
  bnNew * nMaxActualTimespan params < 2 ^ 256 ->
  (forall measured' : Z, measured <= measured' ->
     Retarget params bnNew (Bound params (Dampen params measured))
     <= Retarget params bnNew (Bound params (Dampen params measured')))
  /\ (nPowTargetTimespan params <= measured ->
      bnNew <= Retarget params bnNew (Bound params (Dampen params measured)))
  /\ (measured <= nPowTargetTimespan params ->
      Retarget params bnNew (Bound params (Dampen params measured)) <= bnNew).
Proof.
  intros HT H32 Hbn Hroom.
  destruct (timespan_bounds_around_target params) as [Hlo Hhi]; [lia|].
  assert (HBT : Bound params (nPowTargetTimespan params)
                = nPowTargetTimespan params)
    by (apply Bound_fixes_in_range; lia).
  assert (HDT : Dampen params (nPowTargetTimespan params)
                = nPowTargetTimespan params)
    by (unfold Dampen; rewrite Z.sub_diag; change (Z.quot 0 4) with 0; lia).
  assert (Hsame : bnNew * nPowTargetTimespan params / nPowTargetTimespan params
                  = bnNew) by (apply Z.div_mul; lia).
  split; [|split].
  - intros measured' Hm. rewrite !Retarget_quotient by assumption.
    apply Z.div_le_mono; [lia|].
    apply Z.mul_le_mono_nonneg_l; [exact Hbn|].
    apply Bound_mono, Dampen_mono, Hm.
  - intros Hm. rewrite Retarget_quotient by assumption.
    pose proof (Bound_mono params _ _ (Dampen_mono params _ _ Hm)) as Hats.
    rewrite HDT, HBT in Hats.
    etransitivity; [|apply Z.div_le_mono;
                      [lia|apply Z.mul_le_mono_nonneg_l; [exact Hbn|exact Hats]]].
    rewrite Hsame. lia.
  - intros Hm. rewrite Retarget_quotient by assumption.
    pose proof (Bound_mono params _ _ (Dampen_mono params _ _ Hm)) as Hats.
    rewrite HDT, HBT in Hats.
    etransitivity; [apply Z.div_le_mono;
                      [lia|apply Z.mul_le_mono_nonneg_l; [exact Hbn|exact Hats]]|].
    rewrite Hsame. lia.
Qed.

(** *** When a run has no value *)





(** *** Networks that allow minimum-difficulty blocks *)

Lemma WalkBack_in (params : Params) (limit : Z) (pprev : pindex) :
  forall cur : CBlockIndex,
    In (WalkBack params limit cur pprev) (cur :: pprev).
Proof.
  induction pprev as [|parent older IH]; intros cur; cbn [WalkBack].
  - left. reflexivity.
  - destruct (negb (Z.rem (nHeight cur) (DifficultyAdjustmentInterval params)
                    =? 0) && (nBits cur =? limit)).
    + right. apply IH.
    + left. reflexivity.
Qed.

(** X7.  Under fPowAllowMinDifficultyBlocks the retarget engine is never
    reached: whatever the chain view, the run logs nothing, and its value
    is the encoded powLimit or the nBits of a block already in the chain
    of pindexLast. *)
Theorem GetNextWorkRequired_min_difficulty_never_retargets
    (pindexLast : pindex) (pblock : CBlockHeader) (params : Params) :
  fPowAllowMinDifficultyBlocks params = true ->
  output (GetNextWorkRequired pindexLast pblock params) = []
  /\ (exists c : Z,
        value (GetNextWorkRequired pindexLast pblock params) = Some c
        /\ (c = GetCompact (powLimit params)
            \/ exists b : CBlockIndex, In b pindexLast /\ c = nBits b))
  /\ (forall view : ChainView,
        @GetNextWorkRequired _ view pindexLast pblock params
        = GetNextWorkRequired pindexLast pblock params).
Proof.
  intros Hallow. unfold GetNextWorkRequired. rewrite Hallow.
  destruct pindexLast as [|last pprev].
  - cbn. repeat split. eexists. split; [reflexivity|]. left. reflexivity.
  - destruct (hdr_GetBlockTime pblock
              >? GetBlockTime last + nPowTargetSpacing params * 2); cbn.
    + repeat split. eexists. split; [reflexivity|]. left. reflexivity.
    + repeat split. eexists. split; [reflexivity|]. right.
      eexists. split; [apply WalkBack_in|reflexivity].
Qed.

Lemma linked_nonneg (pprev : pindex) :
  forall cur : CBlockIndex, linked cur pprev -> 0 <= nHeight cur.
Proof.
  induction pprev as [|parent older IH]; intros cur; cbn [linked].
  - auto.
  - intros [Heq Hl]. specialize (IH parent Hl). lia.
Qed.

Lemma rem_pred (h D : Z) :
  0 <= h -> 0 < D -> Z.rem h D <> 0 ->
  Z.rem (h - 1) D = Z.rem h D - 1.
Proof.
  intros Hh HD Hr.
  assert (Hpos : h <> 0) by (intros ->; apply Hr; apply Z.rem_0_l; lia).
  rewrite (Z.rem_mod_nonneg h D) in * by lia.
  rewrite (Z.rem_mod_nonneg (h - 1) D) by lia.
  symmetry. apply (Z.mod_unique_pos _ _ (h / D)).
  - pose proof (Z.mod_pos_bound h D HD). lia.
  - pose proof (Z.div_mod h D). lia.
Qed.

Lemma WalkBack_window (params : Params) (limit : Z) (pprev : pindex) :
  0 < DifficultyAdjustmentInterval params ->
  forall cur : CBlockIndex,
    linked cur pprev ->
    nHeight cur - Z.rem (nHeight cur) (DifficultyAdjustmentInterval params)
    <= nHeight (WalkBack params limit cur pprev) <= nHeight cur.
Proof.
  intros HD. induction pprev as [|parent older IH]; intros cur Hl.
  - cbn [WalkBack]. cbn [linked] in Hl.
    pose proof (Z.rem_nonneg (nHeight cur)
                  (DifficultyAdjustmentInterval params)). lia.
  - pose proof (linked_nonneg _ _ Hl) as Hh.
    pose proof (Z.rem_nonneg (nHeight cur)
                  (DifficultyAdjustmentInterval params)) as Hrn.
    cbn [WalkBack]. cbn [linked] in Hl. destruct Hl as [Heq Hl].
    destruct (Z.eqb_spec (Z.rem (nHeight cur)
                            (DifficultyAdjustmentInterval params)) 0)
      as [Hz|Hnz]; cbn [negb andb]; [lia|].
    destruct (nBits cur =? limit); [|lia].
    specialize (IH parent Hl).
    assert (Hp : nHeight parent = nHeight cur - 1) by lia.
    rewrite Hp in IH at 1 2.
    rewrite rem_pred in IH by lia. lia.
Qed.

(** X8.  On a chain whose heights go down by one to a block without parent,
    the walk of [GetNextWorkRequired] never passes a retarget boundary: the
    block whose nBits it returns is at or above the last multiple of the
    adjustment interval, fewer than one interval of blocks back. *)
Theorem GetNextWorkRequired_walk_stays_in_window
    (last : CBlockIndex) (pprev : pindex) (pblock : CBlockHeader)
    (params : Params) :
  linked last pprev ->
  0 < DifficultyAdjustmentInterval params ->
  fPowAllowMinDifficultyBlocks params = true ->
  hdr_GetBlockTime pblock
  <= GetBlockTime last + 2 * nPowTargetSpacing params ->
  exists stop : CBlockIndex,
    In stop (last :: pprev)
    /\ GetNextWorkRequired (last :: pprev) pblock params
       = ([], Some (nBits stop))
    /\ nHeight last
       - Z.rem (nHeight last) (DifficultyAdjustmentInterval params)
       <= nHeight stop <= nHeight last
    /\ nHeight last - nHeight stop < DifficultyAdjustmentInterval params.
Proof.
  intros Hl HD Hallow Hgap.
  exists (WalkBack params (GetCompact (powLimit params)) last pprev).
  split; [apply WalkBack_in|]. split.
  - unfold GetNextWorkRequired. rewrite Hallow.
    destruct (Z.gtb_spec (hdr_GetBlockTime pblock)
                (GetBlockTime last + nPowTargetSpacing params * 2));
      [lia|reflexivity].
  - pose proof (WalkBack_window params (GetCompact (powLimit params)) pprev
                  HD last Hl) as Hw.
    split; [exact Hw|].
    pose proof (linked_nonneg _ _ Hl) as Hh.
    pose proof (Z.rem_bound_pos (nHeight last)
                  (DifficultyAdjustmentInterval params) Hh HD). lia.
Qed.

(** *** [CheckProofOfWork] and the retarget engine together *)

Lemma CheckProofOfWork_true_iff (hash nBits : Z) (params : Params) :
  CheckProofOfWork hash nBits params = true
  <-> fNegative nBits = false /\ fOverflow nBits = false
      /\ Target nBits <> 0 /\ hash <= Target nBits <= powLimit params.
Proof.
  unfold CheckProofOfWork.
  destruct (fNegative nBits), (fOverflow nBits),
    (Z.eqb_spec (Target nBits) 0),
    (Z.gtb_spec (Target nBits) (powLimit params)),
    (Z.gtb_spec hash (Target nBits)); cbn;
    intuition (try discriminate; try lia).
Qed.

(** X9.  Acceptance is closed downward in the hash and upward in the limit: a
    block accepted with some hash is accepted with every smaller hash, and
    under every parameter set whose powLimit is at least as large, whatever
    its other fields. *)
Theorem CheckProofOfWork_monotone (hash nBits : Z) (params : Params) :
  CheckProofOfWork hash nBits params = true ->
  (forall hash' : Z, hash' <= hash ->
     CheckProofOfWork hash' nBits params = true)
  /\ (forall params' : Params, powLimit params <= powLimit params' ->
        CheckProofOfWork hash nBits params' = true).
Proof.
  intros Hok. apply CheckProofOfWork_true_iff in Hok.
  destruct Hok as (Hn & Ho & Hz & Hh & Hl).
  split.
  - intros hash' Hle. apply CheckProofOfWork_true_iff.
    repeat split; (assumption || lia).
  - intros params' Hle. apply CheckProofOfWork_true_iff.
    repeat split; (assumption || lia).
Qed.

(** X10.  After a parent that passed [CheckProofOfWork], on parameters whose
    powLimit leaves room for the largest bounded timespan, the retarget
    branch computes the exact quotient: the next nBits encode
    min (target * nActualTimespan / nPowTargetTimespan, powLimit), the
    product taken without loss. *)
Theorem CalculateNextWorkRequired_exact_after_checked_parent
    (last : CBlockIndex) (pprev : pindex) (nFirstBlockTime hash : Z)
    (params : Params) :
  fPowNoRetargeting params = false ->
  DifficultyAdjustmentInterval params <= nHeight last ->
  is_null (GetAncestor (last :: pprev)
             (nHeight last - (DifficultyAdjustmentInterval params - 1)))
  = false ->
  0 < nPowTargetTimespan params ->
  nMaxActualTimespan params < 2 ^ 32 ->
  powLimit params * nMaxActualTimespan params < 2 ^ 256 ->
  0 <= hash ->
  CheckProofOfWork hash (nBits last) params = true ->
  value (CalculateNextWorkRequired (last :: pprev) nFirstBlockTime params)
  = Some (GetCompact
            (Z.min
               (Target (nBits last)
                * Bound params
                    (Dampen params
                       (GetMedianTimePast (last :: pprev)
                        - GetMedianTimePast
                            (GetAncestor (last :: pprev)
                               (nHeight last
                                - (DifficultyAdjustmentInterval params - 1)))))
                / nPowTargetTimespan params)
               (powLimit params))).
Proof.
  intros Hno Hge Hanc HT H32 Hroom Hhash Hok.
  apply CheckProofOfWork_true_iff in Hok.
  destruct Hok as (_ & _ & _ & Hh & Hl).
  destruct (CalculateNextWorkRequired_retarget last pprev nFirstBlockTime
              params Hno Hge) as [_ Hval].
  rewrite (Hval Hanc). unfold retargeted.
  rewrite Retarget_quotient; [reflexivity|exact HT|exact H32|lia|].
  destruct (timespan_bounds_around_target params) as [_ Hhi]; [lia|].
  nia.
Qed.

(** *** What the retarget branch returns and logs *)

(** X11.  In the retarget branch the value returned is the compact form of a
    target that is never above powLimit, the one shown in the closing
    "After" line of the log; the line "bnNew > bnPowLimit" is logged
    exactly when the quotient exceeded powLimit, and the value is then the
    encoded powLimit. *)
Theorem CalculateNextWorkRequired_caps_at_powLimit
    (last : CBlockIndex) (pprev : pindex) (nFirstBlockTime : Z)
    (params : Params) :
  fPowNoRetargeting params = false ->
  DifficultyAdjustmentInterval params <= nHeight last ->
  is_null (GetAncestor (last :: pprev)
             (nHeight last - (DifficultyAdjustmentInterval params - 1)))
  = false ->
  exists c v : Z,
    value (CalculateNextWorkRequired (last :: pprev) nFirstBlockTime params)
    = Some c
    /\ c = GetCompact v
    /\ v <= powLimit params
    /\ List.last
         (output (CalculateNextWorkRequired (last :: pprev) nFirstBlockTime
                    params)) LogUseDefaultPowLimit
       = LogAfter c v
    /\ (In LogAboveLimit
          (output (CalculateNextWorkRequired (last :: pprev) nFirstBlockTime
                     params))
        <-> powLimit params
            < Retarget params (Target (nBits last))
                (Bound params
                   (Dampen params
                      (GetMedianTimePast (last :: pprev)
                       - GetMedianTimePast
                           (GetAncestor (last :: pprev)
                              (nHeight last
                               - (DifficultyAdjustmentInterval params - 1)))))))
    /\ (In LogAboveLimit
          (output (CalculateNextWorkRequired (last :: pprev) nFirstBlockTime
                     params))
        -> c = GetCompact (powLimit params)).
Proof.
  intros Hno Hge Hanc. unfold CalculateNextWorkRequired.
  rewrite Hno.
  assert (Hlt : (nHeight last <? DifficultyAdjustmentInterval params) = false)
    by (apply Z.ltb_ge; exact Hge).
  rewrite Hlt.
  assert (Hfirst : (nHeight last - (DifficultyAdjustmentInterval params - 1)
                    >=? 0) = true)
    by (apply Z.geb_le; lia).
  rewrite Hfirst, Hanc.
  set (ats := Bound params _).
  set (bnNew := Retarget params _ ats).
  rewrite bind_LogPrintf, bind_assert_true. cbn [negb assert].
  rewrite bind_ret, bind_LogPrintf.
  destruct (Z.gtb_spec bnNew (powLimit params)) as [Hgt|Hle]; cbn.
  - exists (GetCompact (powLimit params)), (powLimit params).
    repeat split; try lia; auto.
  - exists (GetCompact bnNew), bnNew.
    repeat split; try lia.
    + intros Hin. exfalso.
      repeat (destruct Hin as [Hin|Hin]; [discriminate Hin|]). exact Hin.
    + intros Hin. exfalso.
      repeat (destruct Hin as [Hin|Hin]; [discriminate Hin|]). exact Hin.
Qed.

(** X12.  The candidate header weighs on the required work only through its
    time, and only under fPowAllowMinDifficultyBlocks: without that flag
    any two headers give the same run. *)
Theorem GetNextWorkRequired_header_influence
    (pindexLast : pindex) (pblock pblock' : CBlockHeader) (params : Params) :
  (fPowAllowMinDifficultyBlocks params = false ->
   GetNextWorkRequired pindexLast pblock params
   = GetNextWorkRequired pindexLast pblock' params)
  /\ (hdr_GetBlockTime pblock = hdr_GetBlockTime pblock' ->
      GetNextWorkRequired pindexLast pblock params
      = GetNextWorkRequired pindexLast pblock' params).
Proof.
  unfold GetNextWorkRequired. split.
  - intros Hallow. rewrite Hallow. reflexivity.
  - intros Htime. rewrite Htime. reflexivity.
Qed.

End PowFurther.

(** *** The further properties on concrete inputs *)

(** On the main network the bounds are 1656 and 2088, and the bounded
    timespan stays put from 2952 seconds upward and from 1224 downward. *)
Lemma Bound_Dampen_saturates_main :
  0 <= nPowTargetTimespan CMainParams
  /\ Bound CMainParams (Dampen CMainParams 2952) = 2088
  /\ Bound CMainParams (Dampen CMainParams 1224) = 1656
  /\ Bound CMainParams (Dampen CMainParams 2951) = 2087
  /\ Bound CMainParams (Dampen CMainParams 1225) = 1657.
Proof.
  assert (HT : 0 <= nPowTargetTimespan CMainParams) by (vm_compute; discriminate).
  destruct (Bound_Dampen_saturates CMainParams 2952 HT) as [Hup _].
  destruct (Bound_Dampen_saturates CMainParams 1224 HT) as [_ Hdown].
  split; [exact HT|]. split; [apply Hup; vm_compute; discriminate|].
  split; [apply Hdown; vm_compute; discriminate|].
  split; reflexivity.
Defined.

(** On the main network, from the genesis target: between 92/100 and
    116/100 of it. *)
Lemma Retarget_within_ratio_main :
  0 < nPowTargetTimespan CMainParams
  /\ nMaxActualTimespan CMainParams < 2 ^ 32
  /\ 0 <= Target 0x1d00ffff
  /\ Target 0x1d00ffff * nMaxActualTimespan CMainParams < 2 ^ 256
  /\ Target 0x1d00ffff * 92 / 100
     <= Retarget CMainParams (Target 0x1d00ffff)
          (Bound CMainParams (Dampen CMainParams 0))
     <= Target 0x1d00ffff * 116 / 100.
Proof.
  assert (H1 : 0 < nPowTargetTimespan CMainParams) by reflexivity.
  assert (H2 : nMaxActualTimespan CMainParams < 2 ^ 32) by reflexivity.
  assert (H3 : 0 <= Target 0x1d00ffff) by (vm_compute; discriminate).
  assert (H4 : Target 0x1d00ffff * nMaxActualTimespan CMainParams < 2 ^ 256)
    by (vm_compute; reflexivity).
  destruct (Retarget_within_ratio CMainParams (Target 0x1d00ffff) 0
              H1 H2 H3 H4) as (_ & Hup & Hlow).
  split; [exact H1|]. split; [exact H2|]. split; [exact H3|].
  split; [exact H4|].
  split; [exact (Hlow eq_refl)|exact Hup].
Defined.

(** On the main network: a window of 3600 seconds eases the genesis
    target, one of 900 seconds tightens it. *)
Lemma Retarget_follows_timespan_main :
  0 < nPowTargetTimespan CMainParams
  /\ nMaxActualTimespan CMainParams < 2 ^ 32
  /\ 0 <= Target 0x1d00ffff
  /\ Target 0x1d00ffff * nMaxActualTimespan CMainParams < 2 ^ 256
  /\ Retarget CMainParams (Target 0x1d00ffff)
       (Bound CMainParams (Dampen CMainParams 900))
     <= Target 0x1d00ffff
     <= Retarget CMainParams (Target 0x1d00ffff)
          (Bound CMainParams (Dampen CMainParams 3600)).
Proof.
  assert (H1 : 0 < nPowTargetTimespan CMainParams) by reflexivity.
  assert (H2 : nMaxActualTimespan CMainParams < 2 ^ 32) by reflexivity.
  assert (H3 : 0 <= Target 0x1d00ffff) by (vm_compute; discriminate).
  assert (H4 : Target 0x1d00ffff * nMaxActualTimespan CMainParams < 2 ^ 256)
    by (vm_compute; reflexivity).
  destruct (Retarget_follows_timespan CMainParams (Target 0x1d00ffff) 900
              H1 H2 H3 H4) as (_ & _ & Hdown).
  destruct (Retarget_follows_timespan CMainParams (Target 0x1d00ffff) 3600
              H1 H2 H3 H4) as (_ & Hup & _).
  split; [exact H1|]. split; [exact H2|]. split; [exact H3|].
  split; [exact H4|].
  split; [apply Hdown|apply Hup]; vm_compute; discriminate.
Defined.

(** On the test network nothing is retargeted: eighty blocks on, with the
    candidate in time, the required work is the nBits of the chain. *)
Lemma min_difficulty_never_retargets_testnet :
  fPowAllowMinDifficultyBlocks CTestNetParams = true
  /\ output (GetNextWorkRequired (chain_down 80 slow_block)
               (mkBlockHeader 1487004803 0) CTestNetParams) = []
  /\ GetNextWorkRequired (chain_down 80 slow_block)
       (mkBlockHeader 1487004803 0) CTestNetParams
     = ([], Some 0x1c00ffff).
Proof.
  split; [reflexivity|].
  split; [|reflexivity].
  exact (proj1 (GetNextWorkRequired_min_difficulty_never_retargets
                  (chain_down 80 slow_block) (mkBlockHeader 1487004803 0)
                  CTestNetParams eq_refl)).
Defined.

Lemma linked_chain_down (blk : Z -> CBlockIndex) :
  (forall h : Z, nHeight (blk h) = h) ->
  forall n : nat,
    match chain_down n blk with
    | [] => False
    | cur :: pprev => nHeight cur = Z.of_nat n /\ linked cur pprev
    end.
Proof.
  intros Hblk. induction n as [|n IH].
  - cbn. rewrite Hblk. split; [reflexivity|lia].
  - cbn [chain_down]. destruct (chain_down n blk) as [|cur pprev]; [contradiction|].
    destruct IH as [Hcur Hl]. rewrite Hblk. split; [reflexivity|].
    cbn [linked]. split; [rewrite Hblk, Hcur; lia|exact Hl].
Qed.

(** Seventy blocks at the minimum difficulty on the test network: the
    walk from height 69 ends between the boundary at height 60 and 69. *)
Lemma walk_stays_in_window_testnet :
  linked (min_difficulty_block 69) (chain_down 68 min_difficulty_block)
  /\ 0 < DifficultyAdjustmentInterval CTestNetParams
  /\ fPowAllowMinDifficultyBlocks CTestNetParams = true
  /\ exists stop : CBlockIndex,
       GetNextWorkRequired (chain_down 69 min_difficulty_block)
         (mkBlockHeader (1487000011 + 30 * 70) 0) CTestNetParams
       = ([], Some (nBits stop))
       /\ 60 <= nHeight stop <= 69.
Proof.
  assert (Hl : linked (min_difficulty_block 69)
                 (chain_down 68 min_difficulty_block))
    by exact (proj2 (linked_chain_down min_difficulty_block
                       (fun h => eq_refl) 69%nat)).
  assert (HD : 0 < DifficultyAdjustmentInterval CTestNetParams) by reflexivity.
  assert (Hgap : hdr_GetBlockTime (mkBlockHeader (1487000011 + 30 * 70) 0)
                 <= GetBlockTime (min_difficulty_block 69)
                    + 2 * nPowTargetSpacing CTestNetParams)
    by (vm_compute; discriminate).
  split; [exact Hl|]. split; [exact HD|]. split; [reflexivity|].
  destruct (GetNextWorkRequired_walk_stays_in_window
              (min_difficulty_block 69) (chain_down 68 min_difficulty_block)
              (mkBlockHeader (1487000011 + 30 * 70) 0) CTestNetParams
              Hl HD eq_refl Hgap) as (stop & _ & Hrun & Hwin & _).
  exists stop. split; [exact Hrun|exact Hwin].
Defined.

(** Hash 1 passes under the main limit with the target 0x1c00ffff, and so
    does hash 0, also under the wider regtest limit. *)
Lemma CheckProofOfWork_monotone_main :
  CheckProofOfWork 1 0x1c00ffff CMainParams = true
  /\ CheckProofOfWork 0 0x1c00ffff CMainParams = true
  /\ CheckProofOfWork 1 0x1c00ffff CRegTestParams = true.
Proof.
  assert (Hok : CheckProofOfWork 1 0x1c00ffff CMainParams = true) by reflexivity.
  destruct (CheckProofOfWork_monotone 1 0x1c00ffff CMainParams Hok)
    as [Hhash Hlimit].
  split; [exact Hok|]. split.
  - apply Hhash. vm_compute; discriminate.
  - apply Hlimit. vm_compute; discriminate.
Defined.

(** On the main network, blocks every 60 seconds after a checked parent at
    0x1c00ffff: the next nBits are those of the exact quotient by 1800 of
    the target times 2088. *)
Lemma exact_after_checked_parent_main :
  fPowNoRetargeting CMainParams = false
  /\ DifficultyAdjustmentInterval CMainParams <= nHeight (slow_block 80)
  /\ CheckProofOfWork 1 (nBits (slow_block 80)) CMainParams = true
  /\ value (CalculateNextWorkRequired (chain_down 80 slow_block) 0 CMainParams)
     = Some (GetCompact (Target 0x1c00ffff * 2088 / 1800)).
Proof.
  assert (Hge : DifficultyAdjustmentInterval CMainParams
                <= nHeight (slow_block 80)) by (vm_compute; discriminate).
  assert (Hok : CheckProofOfWork 1 (nBits (slow_block 80)) CMainParams = true)
    by reflexivity.
  assert (Hanc : is_null (GetAncestor (slow_block 80 :: chain_down 79 slow_block)
                            (nHeight (slow_block 80)
                             - (DifficultyAdjustmentInterval CMainParams - 1)))
                 = false) by (vm_compute; reflexivity).
  assert (HT : 0 < nPowTargetTimespan CMainParams) by reflexivity.
  assert (H32 : nMaxActualTimespan CMainParams < 2 ^ 32) by reflexivity.
  assert (Hroom : powLimit CMainParams * nMaxActualTimespan CMainParams
                  < 2 ^ 256) by reflexivity.
  assert (Hhash : 0 <= 1) by discriminate.
  split; [reflexivity|]. split; [exact Hge|]. split; [exact Hok|].
  pose proof (CalculateNextWorkRequired_exact_after_checked_parent
                (slow_block 80) (chain_down 79 slow_block) 0 1 CMainParams
                eq_refl Hge Hanc HT H32 Hroom Hhash Hok) as Hrun.
  etransitivity; [exact Hrun|]. vm_compute. reflexivity.
Defined.


(** On the main network, blocks every 60 seconds at 0x1c00ffff: the
    closing log line shows the value returned, and nothing was capped. *)
Lemma caps_at_powLimit_main :
  fPowNoRetargeting CMainParams = false
  /\ DifficultyAdjustmentInterval CMainParams <= nHeight (slow_block 80)
  /\ exists c v : Z,
       value (CalculateNextWorkRequired (chain_down 80 slow_block) 0
                CMainParams) = Some c
       /\ c = GetCompact v
       /\ v <= powLimit CMainParams.
Proof.
  assert (Hge : DifficultyAdjustmentInterval CMainParams
                <= nHeight (slow_block 80)) by (vm_compute; discriminate).
  assert (Hanc : is_null (GetAncestor (slow_block 80 :: chain_down 79 slow_block)
                            (nHeight (slow_block 80)
                             - (DifficultyAdjustmentInterval CMainParams - 1)))
                 = false) by (vm_compute; reflexivity).
  split; [reflexivity|]. split; [exact Hge|].
  destruct (CalculateNextWorkRequired_caps_at_powLimit
              (slow_block 80) (chain_down 79 slow_block) 0 CMainParams
              eq_refl Hge Hanc) as (c & v & Hval & Hc & Hv & _).
  exists c, v. split; [exact Hval|]. split; [exact Hc|exact Hv].
Defined.

(** ** Properties of chainparams.cpp *)

Import chainparams.

Section ChainParamsProperties.

Context `{CBaseChainParams}.

Lemma Params_chain_names (chain : String.string) (r : ParamsRef) :
  Params_chain chain = Some r ->
  chain = MAIN \/ chain = TESTNET \/ chain = REGTEST.
Proof.
  unfold Params_chain. intros Hr.
  destruct (String.eqb_spec chain MAIN) as [Hm|_]; [left; exact Hm|].
  destruct (String.eqb_spec chain TESTNET) as [Ht|_]; [right; left; exact Ht|].
  destruct (String.eqb_spec chain REGTEST) as [Hg|_]; [right; right; exact Hg|].
  discriminate.
Qed.

(** X13.  A [SelectParams] that returns has made [Params()] the object that
    [Params(network)] refers to, for one of the three chain names, and has
    left the three parameter objects as they were; before any selection
    [Params()] fails its assertion. *)
Theorem SelectParams_then_Params
    (g g' : Globals) (network : String.string) :
  SelectParams g network = Some g' ->
  (exists r : ParamsRef,
     Params_chain network = Some r
     /\ pCurrentParams g' = Some r
     /\ Params_current g' = Some (deref g r))
  /\ (network = MAIN \/ network = TESTNET \/ network = REGTEST)
  /\ mainParams g' = mainParams g
  /\ testNetParams g' = testNetParams g
  /\ regTestParams g' = regTestParams g
  /\ Params_current startup = None.
Proof.
  unfold SelectParams. intros Hsel.
  destruct (SelectBaseParams network); [|discriminate].
  destruct (Params_chain network) as [r|] eqn:Hr; [|discriminate].
  injection Hsel as <-.
  split.
  - exists r. repeat split.
  - split; [exact (Params_chain_names network r Hr)|].
    repeat split.
Qed.

End ChainParamsProperties.

(** X14.  [UpdateRegtestBIP9Parameters] writes the two times of the regtest
    deployment [d] and nothing else: the bit of [d], the other regtest
    deployments, the proof-of-work parameters of regtest, the main and
    test objects and the selection stay; [Params()] shows the new times
    exactly when regtest is the selected network. *)
Theorem UpdateRegtestBIP9Parameters_frame
    (g : Globals) (d : DeploymentPos) (start timeout : Z) :
  vDeployments (regTestParams (UpdateRegtestBIP9Parameters g d start timeout)) d
  = {| bit := bit (vDeployments (regTestParams g) d);
       nStartTime := start; nTimeout := timeout |}
  /\ (forall d' : DeploymentPos, d' <> d ->
        vDeployments
          (regTestParams (UpdateRegtestBIP9Parameters g d start timeout)) d'
        = vDeployments (regTestParams g) d')
  /\ consensus (regTestParams (UpdateRegtestBIP9Parameters g d start timeout))
     = consensus (regTestParams g)
  /\ mainParams (UpdateRegtestBIP9Parameters g d start timeout) = mainParams g
  /\ testNetParams (UpdateRegtestBIP9Parameters g d start timeout)
     = testNetParams g
  /\ pCurrentParams (UpdateRegtestBIP9Parameters g d start timeout)
     = pCurrentParams g
  /\ (pCurrentParams g = Some ref_regTestParams ->
      option_map (fun p => vDeployments p d)
        (Params_current (UpdateRegtestBIP9Parameters g d start timeout))
      = Some {| bit := bit (vDeployments (regTestParams g) d);
                nStartTime := start; nTimeout := timeout |})
  /\ (pCurrentParams g <> Some ref_regTestParams ->
      Params_current (UpdateRegtestBIP9Parameters g d start timeout)
      = Params_current g).
Proof.
  split; [destruct d; reflexivity|].
  split; [intros d' Hd; destruct d, d'; (reflexivity || contradiction)|].
  repeat (split; [reflexivity|]).
  split.
  - intros Hsel. unfold Params_current. cbn. rewrite Hsel. cbn.
    destruct d; reflexivity.
  - intros Hsel. unfold Params_current. cbn.
    destruct (pCurrentParams g) as [[| |]|]; try reflexivity. contradiction.
Qed.

(** X15.  Two updates of the same regtest deployment leave the later times; two
    updates of different deployments give the same deployments in either
    order. *)
Theorem UpdateRegtestBIP9Parameters_compose
    (g : Globals) (d d' e : DeploymentPos) (s t s' t' : Z) :
  vDeployments
    (regTestParams
       (UpdateRegtestBIP9Parameters
          (UpdateRegtestBIP9Parameters g d s t) d s' t')) e
  = vDeployments (regTestParams (UpdateRegtestBIP9Parameters g d s' t')) e
  /\ (d <> d' ->
      vDeployments
        (regTestParams
           (UpdateRegtestBIP9Parameters
              (UpdateRegtestBIP9Parameters g d s t) d' s' t')) e
      = vDeployments
          (regTestParams
             (UpdateRegtestBIP9Parameters
                (UpdateRegtestBIP9Parameters g d' s' t') d s t)) e).
Proof.
  split.
  - destruct d, e; reflexivity.
  - intros Hd. destruct d, d', e; (reflexivity || contradiction).
Qed.

(** X16.  Each network's table agrees with itself and with pow.cpp: the miner
    confirmation window is the difficulty adjustment interval, which
    divides the target timespan exactly; the activation threshold and the
    majority thresholds lie within their windows; the deployments have
    distinct bits below 29 and start before they time out; and the genesis
    block carries the nBits that [GetNextWorkRequired] asks of a block
    without parent, the compact form of powLimit, whose target is within
    the limit. *)
Theorem chain_tables_consistent (r : ParamsRef) (pblock : CBlockHeader) :
  nMinerConfirmationWindow (deref startup r)
  = DifficultyAdjustmentInterval (consensus (deref startup r))
  /\ Z.rem (nPowTargetTimespan (consensus (deref startup r)))
       (nPowTargetSpacing (consensus (deref startup r))) = 0
  /\ 0 < nRuleChangeActivationThreshold (deref startup r)
     <= nMinerConfirmationWindow (deref startup r)
  /\ nMajorityEnforceBlockUpgrade (deref startup r)
     <= nMajorityRejectBlockOutdated (deref startup r)
     <= nMajorityWindow (deref startup r)
  /\ (forall d : DeploymentPos,
        0 <= bit (vDeployments (deref startup r) d) < 29
        /\ nStartTime (vDeployments (deref startup r) d)
           < nTimeout (vDeployments (deref startup r) d))
  /\ (forall d d' : DeploymentPos,
        bit (vDeployments (deref startup r) d)
        = bit (vDeployments (deref startup r) d') -> d = d')
  /\ GetNextWorkRequired [] pblock (consensus (deref startup r))
     = ([], Some (blk_nBits (genesis (deref startup r))))
  /\ CheckProofOfWork 0 (blk_nBits (genesis (deref startup r)))
       (consensus (deref startup r)) = true.
Proof.
  destruct r; cbn [deref startup mainParams testNetParams regTestParams].
  all: split; [reflexivity|]; split; [reflexivity|].
  all: split; [split; [reflexivity|discriminate]|].
  all: split; [split; discriminate|].
  all: split; [intros d; destruct d; repeat split; discriminate|].
  all: split; [intros d d'; destruct d, d'; (reflexivity || discriminate)|].
  all: split; vm_compute; reflexivity.
Qed.

(** Selecting regtest at startup: [Params()] is the regtest object, whose
    strNetworkID is the name selected. *)
Lemma SelectParams_regtest_at_startup :
  SelectParams startup REGTEST
  = Some {| mainParams := CMainParams_ctor;
            testNetParams := CTestNetParams_ctor;
            regTestParams := CRegTestParams_ctor;
            pCurrentParams := Some ref_regTestParams |}
  /\ Params_current
       {| mainParams := CMainParams_ctor;
          testNetParams := CTestNetParams_ctor;
          regTestParams := CRegTestParams_ctor;
          pCurrentParams := Some ref_regTestParams |}
     = Some CRegTestParams_ctor
  /\ REGTEST = strNetworkID CRegTestParams_ctor.
Proof.
  assert (Hsel : SelectParams startup REGTEST
                 = Some {| mainParams := CMainParams_ctor;
                           testNetParams := CTestNetParams_ctor;
                           regTestParams := CRegTestParams_ctor;
                           pCurrentParams := Some ref_regTestParams |})
    by reflexivity.
  destruct (SelectParams_then_Params startup _ REGTEST Hsel)
    as ((r & Hr & Hcur & Hparams) & _).
  split; [exact Hsel|]. split; [|reflexivity].
  rewrite Hparams. injection Hr as <-. reflexivity.
Defined.
